(** * UUID generation functions for FreeBSD (uuid-freebsd.c)

    A shallow embedding of [src/uuid-freebsd.c] and the properties of its
    generators.  C characters and bytes are integers ([Z]); a C string is
    the list of its characters up to, and without, the terminating NUL; a
    pointer that may be NULL is an [option].  The calls into the
    environment ([arc4random], the host's [uuid_create] and
    [uuid_to_string], [ereport]) are threaded through a small state and
    error monad over a [world].  C leaves open the order in which the
    arguments of one call are evaluated: where several arguments call
    [arc4random], the order is a component of the [world]. *)

From Stdlib Require Import ZArith List Ascii String Lia Bool Permutation.
Import ListNotations.
Open Scope Z_scope.

(** ** Characters, strings and printf conversions *)

Definition cstring := list Z.

(** A C string literal. *)
Definition lit (s : string) : cstring :=
  map (fun c => Z.of_nat (nat_of_ascii c)) (list_ascii_of_string s).

(** The lowercase hexadecimal digit printed by the [x] conversion. *)
Definition hex_digit (d : Z) : Z := if d <? 10 then 48 + d else 87 + d.

(** The [w] low hexadecimal digits of [n], most significant first. *)
Fixpoint hex_fixed (w : nat) (n : Z) : cstring :=
  match w with
  | O => []
  | S w' => hex_fixed w' (n / 16) ++ [hex_digit (n mod 16)]
  end.

(** Leading zeros are dropped as long as more than [w] characters remain. *)
Fixpoint strip_zeros (w : nat) (l : cstring) : cstring :=
  match l with
  | c :: t => if (c =? 48) && (w <? List.length l)%nat then strip_zeros w t else l
  | [] => []
  end.

(** The conversions [%0wx] and [%0wlx] of printf on an unsigned argument
    of at most 64 bits: all the digits of the value, padded on the left
    with zeros to [w] characters at least. *)
Definition printf_0x (w : nat) (n : Z) : cstring :=
  strip_zeros (Nat.max 1 w) (hex_fixed 16 n).

(** [strlcpy(dst, src, size)]: at most [size - 1] characters are copied. *)
Definition strlcpy (src : cstring) (size : nat) : cstring :=
  firstn (size - 1) src.

(** [strcpy(dst + off, src)] into an array [dst] of [cap] bytes.  The
    characters of [src] and the terminator are written at [off] and
    after: outside the array ([None]) unless they end within [cap].
    Seen through the string that starts at [dst], a write that begins
    after the terminator of [dst] does not show. *)
Definition strcpy_at (cap : nat) (dst : cstring) (off : nat) (src : cstring)
    : option cstring :=
  if (off + List.length src + 1 <=? cap)%nat
  then Some (if (off <=? List.length dst)%nat
             then firstn off dst ++ src else dst)
  else None.

(** An argument evaluated after others takes its place among them: at
    position [k] of the list, in argument order, of those evaluated so
    far (at the end when [k] is beyond it). *)
Definition insert_at {A : Type} (k : nat) (x : A) (l : list A) : list A :=
  firstn k l ++ x :: skipn k l.

(** The arguments of a call, in argument order, when the [j]-th one to
    be evaluated has the value [f j] and goes to the position that
    [order] gives for [j] among those evaluated before it.  Every list
    [order] is an order of evaluation and every order of evaluation has
    its list: [[]] is right to left, [[0; 1; 2; ...]] is left to right. *)
Fixpoint place_args {A : Type} (order : list nat) (f : nat -> A)
    (j n : nat) (acc : list A) : list A :=
  match n with
  | O => acc
  | S n' =>
      place_args order f (S j) n' (insert_at (nth j order 0%nat) (f j) acc)
  end.

Definition right_to_left : list nat := [].
Definition left_to_right : list nat := [0; 1; 2; 3; 4; 5]%nat.

(** ** Values of type [uuid] and the parser [uuid_in] *)

(** [pg_uuid_t]: sixteen bytes. *)
Definition pg_uuid_t := list Z.

Definition hex_val (c : Z) : option Z :=
  if (48 <=? c) && (c <=? 57) then Some (c - 48)
  else if (97 <=? c) && (c <=? 102) then Some (c - 87)
  else if (65 <=? c) && (c <=? 70) then Some (c - 55)
  else None.

Notation "x <-? a ;; b" :=
  (match a with Some x => b | None => None end)
  (at level 61, a at next level, right associativity).

(** Reads [n] bytes, two hexadecimal digits each. *)
Fixpoint parse_hex_bytes (n : nat) (s : cstring) : option (list Z * cstring) :=
  match n with
  | O => Some ([], s)
  | S n' =>
      match s with
      | c1 :: c2 :: rest =>
          h <-? hex_val c1 ;;
          l <-? hex_val c2 ;;
          r <-? parse_hex_bytes n' rest ;;
          Some ((16 * h + l) :: fst r, snd r)
      | _ => None
      end
  end.

Definition expect_hyphen (s : cstring) : option cstring :=
  match s with
  | c :: rest => if c =? 45 then Some rest else None
  | [] => None
  end.

(** Modelled from the spec: the string-to-uuid parser (PostgreSQL's
    [uuid_in], reached through [DirectFunctionCall1]) is the external
    collaborator of sections 2 and 6; it is not part of the source file.
    It reads the canonical form "xxxxxxxx-xxxx-xxxx-xxxx-xxxxxxxxxxxx" of
    section 3: 36 characters, hexadecimal digits in groups of 8-4-4-4-12
    separated by hyphens at fixed positions, and yields the sixteen bytes
    they denote.  Digits of both cases are read; the source only prints
    lowercase ones. *)
Definition string_to_uuid (s : cstring) : option pg_uuid_t :=
  g1 <-? parse_hex_bytes 4 s ;;
  s1 <-? expect_hyphen (snd g1) ;;
  g2 <-? parse_hex_bytes 2 s1 ;;
  s2 <-? expect_hyphen (snd g2) ;;
  g3 <-? parse_hex_bytes 2 s2 ;;
  s3 <-? expect_hyphen (snd g3) ;;
  g4 <-? parse_hex_bytes 2 s3 ;;
  s4 <-? expect_hyphen (snd g4) ;;
  g5 <-? parse_hex_bytes 6 s4 ;;
  match snd g5 with
  | [] => Some (fst g1 ++ fst g2 ++ fst g3 ++ fst g4 ++ fst g5)
  | _ => None
  end.

(** The version: the high nibble of byte 6. *)
Definition uuid_version (u : pg_uuid_t) : Z := Z.shiftr (nth 6 u 0) 4.

(** The variant: the top two bits of byte 8. *)
Definition uuid_variant (u : pg_uuid_t) : Z := Z.shiftr (nth 8 u 0) 6.

(** The version nibble of byte 6 overwritten with [v] and the top two bits
    of byte 8 with binary 10; every other bit is kept. *)
Definition set_version_variant (v : Z) (u : pg_uuid_t) : pg_uuid_t :=
  firstn 6 u
  ++ [Z.lor (Z.land (nth 6 u 0) 15) (16 * v); nth 7 u 0;
      Z.lor (Z.land (nth 8 u 0) 63) 128]
  ++ skipn 9 u.

Definition is_byte (b : Z) : Prop := 0 <= b < 256.

(** Two hexadecimal digits per byte. *)
Definition hexstr (l : list Z) : cstring := flat_map (hex_fixed 2) l.

(** The first three groups, "xxxxxxxx-xxxx-xxxx", and the last two,
    "-xxxx-xxxxxxxxxxxx", of the canonical form. *)
Definition uuid_head (a : cstring) : option (list Z) :=
  g1 <-? parse_hex_bytes 4 a ;;
  s1 <-? expect_hyphen (snd g1) ;;
  g2 <-? parse_hex_bytes 2 s1 ;;
  s2 <-? expect_hyphen (snd g2) ;;
  g3 <-? parse_hex_bytes 2 s2 ;;
  match snd g3 with
  | [] => Some (fst g1 ++ fst g2 ++ fst g3)
  | _ => None
  end.

Definition uuid_tail (b : cstring) : option (list Z) :=
  s3 <-? expect_hyphen b ;;
  g4 <-? parse_hex_bytes 2 s3 ;;
  s4 <-? expect_hyphen (snd g4) ;;
  g5 <-? parse_hex_bytes 6 s4 ;;
  match snd g5 with
  | [] => Some (fst g4 ++ fst g5)
  | _ => None
  end.

(** ** The message digests of libmd

    [<md5.h>] and [<sha.h>] are system libraries.  Their digest functions
    are written out from RFC 1321 and FIPS 180 and checked against the
    published test vectors below. *)

Definition w32 (x : Z) : Z := x mod 4294967296.

Definition not32 (x : Z) : Z := Z.lxor x 4294967295.

Definition rotl32 (x n : Z) : Z :=
  w32 (Z.lor (Z.shiftl x n) (Z.shiftr x (32 - n))).

(** The [k] low bytes of [n], most significant first. *)
Fixpoint bytes_be (k : nat) (n : Z) : list Z :=
  match k with
  | O => []
  | S k' => bytes_be k' (n / 256) ++ [n mod 256]
  end.

Definition bytes_le (k : nat) (n : Z) : list Z := rev (bytes_be k n).

Definition be32 (b : list Z) : Z :=
  nth 0 b 0 * 16777216 + nth 1 b 0 * 65536 + nth 2 b 0 * 256 + nth 3 b 0.

Definition le32 (b : list Z) : Z :=
  nth 3 b 0 * 16777216 + nth 2 b 0 * 65536 + nth 1 b 0 * 256 + nth 0 b 0.

Fixpoint chunks (fuel size : nat) (l : list Z) : list (list Z) :=
  match fuel with
  | O => []
  | S f =>
      match l with
      | [] => []
      | _ => firstn size l :: chunks f size (skipn size l)
      end
  end.

(** The padding shared by both digests: a one bit, then zeros up to 56
    bytes modulo 64; the 64-bit length follows. *)
Definition md_padding (len : nat) : list Z :=
  128 :: repeat 0 ((119 - len mod 64) mod 64)%nat.

Module MD5.

Definition K : list Z :=
  [ 0xd76aa478; 0xe8c7b756; 0x242070db; 0xc1bdceee;
    0xf57c0faf; 0x4787c62a; 0xa8304613; 0xfd469501;
    0x698098d8; 0x8b44f7af; 0xffff5bb1; 0x895cd7be;
    0x6b901122; 0xfd987193; 0xa679438e; 0x49b40821;
    0xf61e2562; 0xc040b340; 0x265e5a51; 0xe9b6c7aa;
    0xd62f105d; 0x02441453; 0xd8a1e681; 0xe7d3fbc8;
    0x21e1cde6; 0xc33707d6; 0xf4d50d87; 0x455a14ed;
    0xa9e3e905; 0xfcefa3f8; 0x676f02d9; 0x8d2a4c8a;
    0xfffa3942; 0x8771f681; 0x6d9d6122; 0xfde5380c;
    0xa4beea44; 0x4bdecfa9; 0xf6bb4b60; 0xbebfbc70;
    0x289b7ec6; 0xeaa127fa; 0xd4ef3085; 0x04881d05;
    0xd9d4d039; 0xe6db99e5; 0x1fa27cf8; 0xc4ac5665;
    0xf4292244; 0x432aff97; 0xab9423a7; 0xfc93a039;
    0x655b59c3; 0x8f0ccc92; 0xffeff47d; 0x85845dd1;
    0x6fa87e4f; 0xfe2ce6e0; 0xa3014314; 0x4e0811a1;
    0xf7537e82; 0xbd3af235; 0x2ad7d2bb; 0xeb86d391 ].

Definition shifts : list Z :=
  [ 7; 12; 17; 22; 7; 12; 17; 22; 7; 12; 17; 22; 7; 12; 17; 22;
    5; 9; 14; 20; 5; 9; 14; 20; 5; 9; 14; 20; 5; 9; 14; 20;
    4; 11; 16; 23; 4; 11; 16; 23; 4; 11; 16; 23; 4; 11; 16; 23;
    6; 10; 15; 21; 6; 10; 15; 21; 6; 10; 15; 21; 6; 10; 15; 21 ].

Definition state := (Z * Z * Z * Z)%type.

Definition init : state :=
  (0x67452301, 0xefcdab89, 0x98badcfe, 0x10325476).

Definition step (M : list Z) (st : state) (i : nat) : state :=
  let '(a, b, c, d) := st in
  let '(f, g) :=
    if (i <? 16)%nat then
      (Z.lor (Z.land b c) (Z.land (not32 b) d), i)
    else if (i <? 32)%nat then
      (Z.lor (Z.land d b) (Z.land (not32 d) c), ((5 * i + 1) mod 16)%nat)
    else if (i <? 48)%nat then
      (Z.lxor (Z.lxor b c) d, ((3 * i + 5) mod 16)%nat)
    else
      (Z.lxor c (Z.lor b (not32 d)), ((7 * i) mod 16)%nat) in
  let f' := w32 (f + a + nth i K 0 + nth g M 0) in
  (d, w32 (b + rotl32 f' (nth i shifts 0)), b, c).

Definition block (st : state) (blk : list Z) : state :=
  let M := map le32 (chunks 16 4 blk) in
  let '(a, b, c, d) := st in
  let '(a', b', c', d') := fold_left (step M) (seq 0 64) st in
  (w32 (a + a'), w32 (b + b'), w32 (c + c'), w32 (d + d')).

Definition pad (msg : list Z) : list Z :=
  msg ++ md_padding (List.length msg)
      ++ bytes_le 8 (8 * Z.of_nat (List.length msg)).

Definition output (st : state) : list Z :=
  let '(a, b, c, d) := st in
  bytes_le 4 a ++ bytes_le 4 b ++ bytes_le 4 c ++ bytes_le 4 d.

(** Modelled from the spec: the MD5 digest named in section 4.4, the
    function that libmd computes; sixteen bytes. *)
Definition digest (msg : list Z) : list Z :=
  let p := pad msg in
  output (fold_left block (chunks (List.length p) 64 p) init).

End MD5.

Module SHA1.

Definition state := (Z * Z * Z * Z * Z)%type.

Definition init : state :=
  (0x67452301, 0xefcdab89, 0x98badcfe, 0x10325476, 0xc3d2e1f0).

(** The message schedule: [n] more words after those of [W]. *)
Fixpoint extend (n : nat) (W : list Z) : list Z :=
  match n with
  | O => W
  | S n' =>
      let t := List.length W in
      let w := Z.lxor (Z.lxor (nth (t - 3) W 0) (nth (t - 8) W 0))
                      (Z.lxor (nth (t - 14) W 0) (nth (t - 16) W 0)) in
      extend n' (W ++ [rotl32 w 1])
  end.

Definition step (W : list Z) (st : state) (t : nat) : state :=
  let '(a, b, c, d, e) := st in
  let '(f, k) :=
    if (t <? 20)%nat then
      (Z.lor (Z.land b c) (Z.land (not32 b) d), 0x5a827999)
    else if (t <? 40)%nat then
      (Z.lxor (Z.lxor b c) d, 0x6ed9eba1)
    else if (t <? 60)%nat then
      (Z.lor (Z.lor (Z.land b c) (Z.land b d)) (Z.land c d), 0x8f1bbcdc)
    else
      (Z.lxor (Z.lxor b c) d, 0xca62c1d6) in
  let temp := w32 (rotl32 a 5 + f + e + k + nth t W 0) in
  (temp, a, rotl32 b 30, c, d).

Definition block (st : state) (blk : list Z) : state :=
  let W := extend 64 (map be32 (chunks 16 4 blk)) in
  let '(a, b, c, d, e) := st in
  let '(a', b', c', d', e') := fold_left (step W) (seq 0 80) st in
  (w32 (a + a'), w32 (b + b'), w32 (c + c'), w32 (d + d'), w32 (e + e')).

Definition pad (msg : list Z) : list Z :=
  msg ++ md_padding (List.length msg)
      ++ bytes_be 8 (8 * Z.of_nat (List.length msg)).

Definition output (st : state) : list Z :=
  let '(a, b, c, d, e) := st in
  bytes_be 4 a ++ bytes_be 4 b ++ bytes_be 4 c ++ bytes_be 4 d
  ++ bytes_be 4 e.

(** Modelled from the spec: the SHA-1 digest named in section 4.4, the
    function that libmd computes; twenty bytes. *)
Definition digest (msg : list Z) : list Z :=
  let p := pad msg in
  output (fold_left block (chunks (List.length p) 64 p) init).

End SHA1.

(** Modelled from the spec: the streaming interface of libmd that the
    source calls.  A context holds the bytes fed so far by the updates,
    [len] bytes of [data] each, and the final call digests them. *)
Definition MD5_CTX := list Z.
Definition MD5Init : MD5_CTX := [].
Definition MD5Update (ctx : MD5_CTX) (data : list Z) (len : Z) : MD5_CTX :=
  ctx ++ firstn (Z.to_nat len) data.
Definition MD5Final (ctx : MD5_CTX) : list Z := MD5.digest ctx.

Definition SHA_CTX := list Z.
Definition SHA1_Init : SHA_CTX := [].
Definition SHA1_Update (ctx : SHA_CTX) (data : list Z) (len : Z) : SHA_CTX :=
  ctx ++ firstn (Z.to_nat len) data.
Definition SHA1_Final (ctx : SHA_CTX) : list Z := SHA1.digest ctx.

(** ** The environment *)

(** [uuid_t] of the host's [<uuid.h>]. *)
Record uuid_t := mk_uuid_t {
  time_low : Z;
  time_mid : Z;
  time_hi_and_version : Z;
  clock_seq_hi_and_reserved : Z;
  clock_seq_low : Z;
  node : list Z
}.

(** [uuid_s_ok] of the host's [<uuid.h>]. *)
Definition uuid_s_ok : Z := 0.

(** What a call can observe of the outside: the successive outputs of
    [arc4random], what the successive calls of [uuid_create] store in
    [uu] and [status], what [uuid_to_string] stores in [str] (NULL is
    [None]) and [status], and the order in which the build evaluates the
    [n] arguments of a call that draw from [arc4random] (see
    [place_args]). *)
Record world := mk_world {
  arc4_stream : nat -> Z;
  arc4_count : nat;
  host_uuid : nat -> uuid_t * Z;
  host_count : nat;
  host_string : uuid_t -> option cstring * Z;
  arg_order : nat -> list nat
}.

Inductive sqlstate :=
| ERRCODE_EXTERNAL_ROUTINE_EXCEPTION
| ERRCODE_INVALID_TEXT_REPRESENTATION.

Inductive errarg :=
| ArgInt (n : Z)
| ArgStr (s : cstring).

(** The content of an [ereport(ERROR, ...)]. *)
Record error_data := mk_error {
  sqlerrcode : sqlstate;
  errmsg : string;
  errmsg_arg : errarg
}.

(** What leaves a call without defined behaviour: a read through a NULL
    pointer, a write outside an array. *)
Inductive undefined_behaviour :=
| NullRead
| Overrun.

(** A call returns a value, leaves through [ereport(ERROR)], or has no
    defined behaviour. *)
Inductive outcome (A : Type) :=
| Ok (a : A)
| Error (e : error_data)
| Undefined (b : undefined_behaviour).
Arguments Ok {A} a.
Arguments Error {A} e.
Arguments Undefined {A} b.

Definition M (A : Type) := world -> outcome A * world.

Definition ret {A} (a : A) : M A := fun w => (Ok a, w).

Definition bind {A B} (m : M A) (k : A -> M B) : M B :=
  fun w =>
    match m w with
    | (Ok a, w') => k a w'
    | (Error e, w') => (Error e, w')
    | (Undefined b, w') => (Undefined b, w')
    end.

Definition ereport {A} (e : error_data) : M A := fun w => (Error e, w).

Definition undefined {A} (b : undefined_behaviour) : M A :=
  fun w => (Undefined b, w).

Notation "x <- m ;; k" := (bind m (fun x => k))
  (at level 61, m at next level, right associativity).
Notation "' p <- m ;; k" := (bind m (fun x => let p := x in k))
  (at level 61, p pattern, m at next level, right associativity).

(** [uint32_t arc4random(void)]. *)
Definition arc4random : M Z :=
  fun w =>
    (Ok (w32 (arc4_stream w (arc4_count w))),
     mk_world (arc4_stream w) (S (arc4_count w))
              (host_uuid w) (host_count w) (host_string w) (arg_order w)).

(** The values of [n] arguments that each call [arc4random], in argument
    order: they are drawn one after the other, in the order of evaluation
    [order] (see [place_args]). *)
Fixpoint eval_args (order : list nat) (j n : nat) (acc : list Z)
    : M (list Z) :=
  match n with
  | O => ret acc
  | S n' =>
      r <- arc4random ;;
      eval_args order (S j) n' (insert_at (nth j order 0%nat) r acc)
  end.

Definition sprintf_args (n : nat) : M (list Z) :=
  fun w => eval_args (arg_order w n) 0 n [] w.

(** [uuid_create(&uu, &status)]. *)
Definition uuid_create : M (uuid_t * Z) :=
  fun w =>
    let '(uu, status) := host_uuid w (host_count w) in
    (Ok (uu, w32 status),
     mk_world (arc4_stream w) (arc4_count w)
              (host_uuid w) (S (host_count w)) (host_string w) (arg_order w)).

(** [uuid_to_string(&uu, &str, &status)]. *)
Definition uuid_to_string (uu : uuid_t) : M (option cstring * Z) :=
  fun w =>
    let '(str, status) := host_string w uu in
    (Ok (str, w32 status), w).

(** [(int) status] for a [uint32_t]. *)
Definition int_of_uint32 (x : Z) : Z :=
  if x <? 2147483648 then x else x - 4294967296.

(** [DirectFunctionCall1(uuid_in, CStringGetDatum(strbuf))]: the parser
    returns the value or reports a syntax error. *)
Definition uuid_in (strbuf : cstring) : M pg_uuid_t :=
  match string_to_uuid strbuf with
  | Some u => ret u
  | None =>
      ereport (mk_error ERRCODE_INVALID_TEXT_REPRESENTATION
                        "invalid input syntax for uuid: %s" (ArgStr strbuf))
  end.

(** ** The source: [internal_uuid_create] and its callers *)

Definition hyphen : cstring := [45].

(** The format of cases 3 and 5:
    ["%02x%02x%02x%02x-%02x%02x-%02x%02x-%02x%02x-%02x%02x%02x%02x%02x%02x"]
    on [buf], with the version bits [vbits] in argument 7 and the variant
    in argument 9. *)
Definition sprintf_hash (buf : list Z) (vbits : Z) : cstring :=
  let b i := nth i buf 0 in
  printf_0x 2 (b 0%nat) ++ printf_0x 2 (b 1%nat)
  ++ printf_0x 2 (b 2%nat) ++ printf_0x 2 (b 3%nat) ++ hyphen
  ++ printf_0x 2 (b 4%nat) ++ printf_0x 2 (b 5%nat) ++ hyphen
  ++ printf_0x 2 (Z.lor (Z.land (b 6%nat) 0xf) vbits)
  ++ printf_0x 2 (b 7%nat) ++ hyphen
  ++ printf_0x 2 (Z.lor (Z.land (b 8%nat) 0x3F) 0x80)
  ++ printf_0x 2 (b 9%nat) ++ hyphen
  ++ printf_0x 2 (b 10%nat) ++ printf_0x 2 (b 11%nat)
  ++ printf_0x 2 (b 12%nat) ++ printf_0x 2 (b 13%nat)
  ++ printf_0x 2 (b 14%nat) ++ printf_0x 2 (b 15%nat).

(** The format of case 4, ["%08lx-%04x-%04x-%04x-%04x%08lx"], on six
    outputs of [arc4random]. *)
Definition sprintf_v4 (r0 r1 r2 r3 r4 r5 : Z) : cstring :=
  printf_0x 8 r0 ++ hyphen
  ++ printf_0x 4 (Z.land r1 0xffff) ++ hyphen
  ++ printf_0x 4 (Z.lor (Z.land r2 0xfff) 0x4000) ++ hyphen
  ++ printf_0x 4 (Z.lor (Z.land r3 0x3fff) 0x8000) ++ hyphen
  ++ printf_0x 4 (Z.land r4 0xffff)
  ++ printf_0x 8 r5.

Definition library_failure (status : Z) : error_data :=
  mk_error ERRCODE_EXTERNAL_ROUTINE_EXCEPTION
           "FreeBSD uuid library failure: %d"
           (ArgInt (int_of_uint32 status)).

(** The [switch] of [internal_uuid_create]: what [strbuf] holds when the
    function reaches its [return].  The six arguments of the [sprintf]
    of the random case are drawn from [arc4random] in the order of
    evaluation of the build. *)
Definition internal_uuid_strbuf
    (v : Z) (ns : option (list Z)) (ptr : option cstring) (len : Z)
    : M cstring :=
  if v =? 0 then
    (* constant-value uuids: nil, or namespace uuids *)
    match ptr with
    | Some p => ret (strlcpy p 37)
    | None => undefined NullRead
    end
  else if v =? 1 then
    (* time/node-based uuids *)
    '(uu, status) <- uuid_create ;;
    if status =? uuid_s_ok then
      '(str, status) <- uuid_to_string uu ;;
      if status =? uuid_s_ok then
        match str with
        | Some s =>
            let strbuf := strlcpy s 37 in
            match ptr with
            | Some p =>
                if len <=? 36
                then
                  match strcpy_at 40 strbuf (Z.to_nat (36 - len)) p with
                  | Some strbuf' => ret strbuf'
                  | None => undefined Overrun
                  end
                else ret strbuf
            | None => ret strbuf
            end
        | None => undefined NullRead
        end
      else ereport (library_failure status)
    else ereport (library_failure status)
  else if v =? 3 then
    (* namespace-based MD5 uuids *)
    match ns, ptr with
    | Some n, Some p =>
        let ctx := MD5Init in
        let ctx := MD5Update ctx n 16 in
        let ctx := MD5Update ctx p len in
        let buf := MD5Final ctx in
        ret (sprintf_hash buf 0x30)
    | _, _ => undefined NullRead
    end
  else if v =? 5 then
    (* namespace-based SHA1 uuids *)
    match ns, ptr with
    | Some n, Some p =>
        let ctx := SHA1_Init in
        let ctx := SHA1_Update ctx n 16 in
        let ctx := SHA1_Update ctx p len in
        let buf := SHA1_Final ctx in
        ret (sprintf_hash buf 0x50)
    | _, _ => undefined NullRead
    end
  else
    (* case 4, default: random uuid *)
    a <- sprintf_args 6 ;;
    ret (sprintf_v4 (nth 0 a 0) (nth 1 a 0) (nth 2 a 0)
                    (nth 3 a 0) (nth 4 a 0) (nth 5 a 0)).

Definition internal_uuid_create
    (v : Z) (ns : option (list Z)) (ptr : option cstring) (len : Z)
    : M pg_uuid_t :=
  strbuf <- internal_uuid_strbuf v ns ptr len ;;
  uuid_in strbuf.

Definition uuid_nil : M pg_uuid_t :=
  internal_uuid_create 0 None
    (Some (lit "00000000-0000-0000-0000-000000000000")) 36.

Definition uuid_ns_dns : M pg_uuid_t :=
  internal_uuid_create 0 None
    (Some (lit "6ba7b810-9dad-11d1-80b4-00c04fd430c8")) 36.

Definition uuid_ns_url : M pg_uuid_t :=
  internal_uuid_create 0 None
    (Some (lit "6ba7b811-9dad-11d1-80b4-00c04fd430c8")) 36.

Definition uuid_ns_oid : M pg_uuid_t :=
  internal_uuid_create 0 None
    (Some (lit "6ba7b812-9dad-11d1-80b4-00c04fd430c8")) 36.

Definition uuid_ns_x500 : M pg_uuid_t :=
  internal_uuid_create 0 None
    (Some (lit "6ba7b814-9dad-11d1-80b4-00c04fd430c8")) 36.

Definition uuid_generate_v1 : M pg_uuid_t :=
  internal_uuid_create 1 None None 0.

(** The format ["-%04x-%04x%08lx"] of [uuid_generate_v1mc]. *)
Definition sprintf_v1mc (r0 r1 r2 : Z) : cstring :=
  hyphen
  ++ printf_0x 4 (Z.lor (Z.land r0 0x3FFF) 0x8000) ++ hyphen
  (* set IEEE802 multicast and local-admin bits *)
  ++ printf_0x 4 (Z.lor (Z.land r1 0xffff) 0x0300)
  ++ printf_0x 8 r2.

(** The [sprintf] of [uuid_generate_v1mc] into its local [buf]; its
    three arguments are drawn from [arc4random] in the order of
    evaluation of the build. *)
Definition v1mc_buf : M cstring :=
  a <- sprintf_args 3 ;;
  ret (sprintf_v1mc (nth 0 a 0) (nth 1 a 0) (nth 2 a 0)).

Definition uuid_generate_v1mc : M pg_uuid_t :=
  buf <- v1mc_buf ;;
  internal_uuid_create 1 None (Some buf) 18.

(** A [text] argument: its data bytes; the header of [VARHDRSZ] bytes
    holds their count. *)
Definition text := list Z.
Definition VARHDRSZ : Z := 4.
Definition VARSIZE (t : text) : Z := VARHDRSZ + Z.of_nat (List.length t).
Definition VARDATA (t : text) : list Z := t.

Definition uuid_generate_v3 (ns : pg_uuid_t) (name : text) : M pg_uuid_t :=
  internal_uuid_create 3 (Some ns) (Some (VARDATA name))
                       (VARSIZE name - VARHDRSZ).

Definition uuid_generate_v4 : M pg_uuid_t :=
  internal_uuid_create 4 None None 0.

Definition uuid_generate_v5 (ns : pg_uuid_t) (name : text) : M pg_uuid_t :=
  internal_uuid_create 5 (Some ns) (Some (VARDATA name))
                       (VARSIZE name - VARHDRSZ).

(** ** Runs of the generators *)

(** The [i]-th next output of [arc4random] in [w]. *)
Definition draw (w : world) (i : nat) : Z :=
  w32 (arc4_stream w (i + arc4_count w)).

(** The world after [n] calls of [arc4random]. *)
Definition after_draws (w : world) (n : nat) : world :=
  mk_world (arc4_stream w) (n + arc4_count w)
           (host_uuid w) (host_count w) (host_string w) (arg_order w).

(** The values of the [n] arguments of a call of [sprintf] in [w], in
    argument order, and the [i]-th of them. *)
Definition call_args (w : world) (n : nat) : list Z :=
  place_args (arg_order w n) (draw w) 0 n [].

Definition arg (w : world) (n i : nat) : Z := nth i (call_args w n) 0.

(** The world after a call of [uuid_create]. *)
Definition after_create (w : world) : world :=
  mk_world (arc4_stream w) (arc4_count w)
           (host_uuid w) (S (host_count w)) (host_string w) (arg_order w).

(** What the host provider reports to the next call in [w]. *)
Definition create_status (w : world) : Z :=
  w32 (snd (host_uuid w (host_count w))).

Definition string_status (w : world) : Z :=
  w32 (snd (host_string w (fst (host_uuid w (host_count w))))).

Definition host_str (w : world) : option cstring :=
  fst (host_string w (fst (host_uuid w (host_count w)))).

(** ** Fields of a value, generators, and the host's contract *)

(** The fourteen bits of the clock sequence: the low six bits of byte 8
    and byte 9. *)
Definition uuid_clock_seq (u : pg_uuid_t) : Z :=
  (nth 8 u 0 mod 64) * 256 + nth 9 u 0.

(** The node field: bytes 10 to 15. *)
Definition uuid_node (u : pg_uuid_t) : list Z := skipn 10 u.

(** The positions of the version nibble and of the variant bits: bit [i]
    of byte [k], bit 0 the least significant. *)
Definition version_bit (k : nat) (i : Z) : bool :=
  (k =? 6)%nat && (4 <=? i) && (i <? 8).

Definition variant_bit (k : nat) (i : Z) : bool :=
  (k =? 8)%nat && (6 <=? i) && (i <? 8).

(** The five generators of the interface and the version each one makes. *)
Inductive generator :=
| Gen_v1
| Gen_v1mc
| Gen_v3 (ns : pg_uuid_t) (name : text)
| Gen_v4
| Gen_v5 (ns : pg_uuid_t) (name : text).

Definition generate (g : generator) : M pg_uuid_t :=
  match g with
  | Gen_v1 => uuid_generate_v1
  | Gen_v1mc => uuid_generate_v1mc
  | Gen_v3 ns name => uuid_generate_v3 ns name
  | Gen_v4 => uuid_generate_v4
  | Gen_v5 ns name => uuid_generate_v5 ns name
  end.

Definition version_of (g : generator) : Z :=
  match g with
  | Gen_v1 | Gen_v1mc => 1
  | Gen_v3 _ _ => 3
  | Gen_v4 => 4
  | Gen_v5 _ _ => 5
  end.

(** Modelled from the spec: the host time/clock-sequence/node provider of
    section 4.3 (the system's [uuid_create] and [uuid_to_string]) is an
    external collaborator and not part of the source file.  Its contract
    (v1): when both steps report success, the string is the canonical
    form of a value in the v1 layout, version nibble 0001 and variant
    bits 10. *)
Definition host_v1 (w : world) : Prop :=
  create_status w = uuid_s_ok -> string_status w = uuid_s_ok ->
  exists s u, host_str w = Some s /\ string_to_uuid s = Some u
              /\ uuid_version u = 1 /\ uuid_variant u = 2.

(** Modelled from the spec: the canonical text (section 3) that the
    host's [uuid_to_string] makes of a [uuid_t], the format
    "%08x-%04x-%04x-%02x%02x-%02x%02x%02x%02x%02x%02x" on the fields in
    the order of their declaration. *)
Definition host_format (uu : uuid_t) : cstring :=
  printf_0x 8 (time_low uu) ++ hyphen
  ++ printf_0x 4 (time_mid uu) ++ hyphen
  ++ printf_0x 4 (time_hi_and_version uu) ++ hyphen
  ++ printf_0x 2 (clock_seq_hi_and_reserved uu)
  ++ printf_0x 2 (clock_seq_low uu) ++ hyphen
  ++ flat_map (printf_0x 2) (node uu).

(** Modelled from the spec: the v1 layout of section 4.3 in a [uuid_t].
    The fields fill their widths, the top nibble of
    [time_hi_and_version] is 0001 and the top bits of
    [clock_seq_hi_and_reserved] are 10. *)
Definition v1_layout (uu : uuid_t) : Prop :=
  0 <= time_low uu < 4294967296
  /\ 0 <= time_mid uu < 65536
  /\ 0x1000 <= time_hi_and_version uu < 0x2000
  /\ 0x80 <= clock_seq_hi_and_reserved uu < 0xC0
  /\ is_byte (clock_seq_low uu)
  /\ List.length (node uu) = 6%nat
  /\ Forall is_byte (node uu).

(** A sample world: a host whose calls report [st1] and [st2], on a
    build that evaluates arguments from right to left. *)
Definition sample_world (st1 st2 : Z) : world :=
  mk_world
    (fun n => 0x12345678 + 1000003 * Z.of_nat n) 0
    (fun n => (mk_uuid_t (0x1d19dad6 + Z.of_nat n) 0xba7b 0x11d1 0x80 0xb4
                         [0x00; 0xc0; 0x4f; 0xd4; 0x30; 0xc8], st1)) 0
    (fun uu => (if st2 =? 0 then Some (host_format uu) else None, st2))
    (fun _ => right_to_left).

(** The DNS namespace, as bytes. *)
Definition ns_dns_bytes : pg_uuid_t :=
  [0x6b; 0xa7; 0xb8; 0x10; 0x9d; 0xad; 0x11; 0xd1;
   0x80; 0xb4; 0x00; 0xc0; 0x4f; 0xd4; 0x30; 0xc8].

(** ** The canonical form of a string *)

(** A digit or a lowercase letter from a to f. *)
Definition is_lower_hex (c : Z) : bool :=
  ((48 <=? c) && (c <=? 57)) || ((97 <=? c) && (c <=? 102)).

(** What stands at position [i]: a hyphen at 8, 13, 18 and 23, a
    lowercase hexadecimal digit elsewhere. *)
Definition canonical_char (i : nat) (c : Z) : bool :=
  if (i =? 8)%nat || (i =? 13)%nat || (i =? 18)%nat || (i =? 23)%nat
  then c =? 45
  else is_lower_hex c.

(** The characters of [s] are those of the canonical form from position
    [i] on. *)
Fixpoint canonical_from (i : nat) (s : cstring) : bool :=
  match s with
  | [] => true
  | c :: t => canonical_char i c && canonical_from (S i) t
  end.

(** The form "xxxxxxxx-xxxx-xxxx-xxxx-xxxxxxxxxxxx" in lowercase digits:
    36 characters. *)
Definition canonical (s : cstring) : bool :=
  (List.length s =? 36)%nat && canonical_from 0 s.

(** A world in which [arc4random] returns the words of [l] in turn, on a
    build that evaluates the arguments of a call in the order [order]. *)
Definition world_of_draws (order : list nat) (l : list Z) : world :=
  mk_world (fun n => nth n l 0) 0
           (fun _ => (mk_uuid_t 0 0 0 0 0 [], 0)) 0
           (fun _ => (None, 0))
           (fun _ => order).

(** The number that a byte string denotes, most significant byte first. *)
Definition be_value (l : list Z) : Z :=
  fold_left (fun acc b => acc * 256 + b) l 0.

(** The position of [j] in [l]. *)
Fixpoint index_of (j : nat) (l : list nat) : nat :=
  match l with
  | [] => 0%nat
  | x :: l' => if (j =? x)%nat then 0%nat else S (index_of j l')
  end.

(** The words that [arc4random] has to give, in the order in which they
    are drawn, for the arguments of a call to be [t] when the build
    evaluates them in the order [order]. *)
Definition draws_for (order : list nat) (t : list Z) : list Z :=
  let idx := place_args order (fun j => j) 0 (List.length t) [] in
  map (fun j => nth (index_of j idx) t 0) (seq 0 (List.length t)).

(** ** Tactics *)

Ltac explode_step l H :=
  destruct l as [|? l]; [cbn [List.length] in H; lia|].

Ltac explode l H :=
  do 16 (destruct l as [|? l]; [cbn [List.length] in H; lia|]).

Ltac split_Forall :=
  repeat match goal with
         | H : Forall _ (_ :: _) |- _ =>
             apply Forall_cons_iff in H; destruct H
         end.

Ltac solve_Forall :=
  repeat (apply Forall_cons; [assumption|]); apply Forall_nil.

Ltac list_eq :=
  repeat match goal with
         | |- _ :: _ = _ :: _ => f_equal
         end;
  try reflexivity.

(** ** Hexadecimal text and its reading *)

Lemma hex_val_hex_digit (d : Z) :
  0 <= d < 16 -> hex_val (hex_digit d) = Some d.
Proof.
  intros H. unfold hex_digit, hex_val.
  destruct (d <? 10) eqn:E.
  - apply Z.ltb_lt in E.
    replace ((48 <=? 48 + d) && (48 + d <=? 57)) with true.
    + f_equal. lia.
    + symmetry. apply andb_true_iff. split; apply Z.leb_le; lia.
  - apply Z.ltb_ge in E.
    replace ((48 <=? 87 + d) && (87 + d <=? 57)) with false.
    + replace ((97 <=? 87 + d) && (87 + d <=? 102)) with true.
      * f_equal. lia.
      * symmetry. apply andb_true_iff. split; apply Z.leb_le; lia.
    + symmetry. apply andb_false_iff. right. apply Z.leb_gt. lia.
Qed.

Lemma hex_fixed_length (w : nat) : forall n, List.length (hex_fixed w n) = w.
Proof.
  induction w as [|w IH]; intros n; cbn [hex_fixed].
  - reflexivity.
  - rewrite length_app, IH. cbn. lia.
Qed.

Lemma hex_fixed_zero (w : nat) : hex_fixed w 0 = repeat 48 w.
Proof.
  induction w as [|w IH]; cbn [hex_fixed].
  - reflexivity.
  - change (0 / 16) with 0. rewrite IH.
    change [hex_digit (0 mod 16)] with (repeat 48 1).
    rewrite <- repeat_app. f_equal. lia.
Qed.

Lemma hex_fixed_app (b : nat) :
  forall a n, hex_fixed (a + b) n
              = hex_fixed a (n / 16 ^ Z.of_nat b) ++ hex_fixed b n.
Proof.
  induction b as [|b IH]; intros a n.
  - rewrite Nat.add_0_r, app_nil_r. cbn [Z.of_nat]. now rewrite Z.pow_0_r, Z.div_1_r.
  - replace (a + S b)%nat with (S (a + b)) by lia.
    cbn [hex_fixed]. rewrite IH, app_assoc. do 2 f_equal.
    rewrite Nat2Z.inj_succ, Z.pow_succ_r by lia.
    rewrite Z.div_div by lia. reflexivity.
Qed.

Lemma strip_zeros_repeat (w k : nat) (l : cstring) :
  List.length l = w -> strip_zeros w (repeat 48 k ++ l) = l.
Proof.
  intros Hl. induction k as [|k IH].
  - cbn [repeat app]. destruct l as [|c t]; [reflexivity|].
    cbn [strip_zeros].
    match goal with |- context [Nat.ltb ?a ?b] =>
      destruct (Nat.ltb_spec a b) as [Hlt|Hge] end.
    + cbn [List.length] in Hlt, Hl. lia.
    + now rewrite andb_false_r.
  - cbn [repeat app strip_zeros].
    match goal with |- context [Nat.ltb ?a ?b] =>
      destruct (Nat.ltb_spec a b) as [Hlt|Hge] end.
    + exact IH.
    + cbn [List.length] in Hge. rewrite length_app in Hge. lia.
Qed.

(** On a value that fits in [w] digits the conversion prints exactly the
    [w] digits. *)
Lemma printf_0x_fixed (w : nat) (n : Z) :
  (1 <= w <= 16)%nat -> 0 <= n < 16 ^ Z.of_nat w ->
  printf_0x w n = hex_fixed w n.
Proof.
  intros Hw Hn. unfold printf_0x.
  replace 16%nat with ((16 - w) + w)%nat at 1 by lia.
  rewrite hex_fixed_app, Z.div_small by lia.
  rewrite hex_fixed_zero.
  apply strip_zeros_repeat. rewrite hex_fixed_length. lia.
Qed.

Lemma printf_0x_2 (n : Z) : is_byte n -> printf_0x 2 n = hex_fixed 2 n.
Proof. intros H. apply printf_0x_fixed; [lia|]. exact H. Qed.

Lemma printf_0x_4 (n : Z) : 0 <= n < 65536 -> printf_0x 4 n = hex_fixed 4 n.
Proof. intros H. apply printf_0x_fixed; [lia|]. exact H. Qed.

Lemma printf_0x_8 (n : Z) :
  0 <= n < 4294967296 -> printf_0x 8 n = hex_fixed 8 n.
Proof. intros H. apply printf_0x_fixed; [lia|]. exact H. Qed.

Lemma bytes_be_length (k : nat) : forall n, List.length (bytes_be k n) = k.
Proof.
  induction k as [|k IH]; intros n; cbn [bytes_be].
  - reflexivity.
  - rewrite length_app, IH. cbn. lia.
Qed.

Lemma bytes_be_byte (k : nat) : forall n, Forall is_byte (bytes_be k n).
Proof.
  induction k as [|k IH]; intros n; cbn [bytes_be].
  - constructor.
  - apply Forall_app. split; [apply IH|].
    constructor; [|constructor]. apply Z.mod_pos_bound. lia.
Qed.

Lemma hexstr_app (a b : list Z) : hexstr (a ++ b) = hexstr a ++ hexstr b.
Proof. apply flat_map_app. Qed.

Lemma hexstr_length (l : list Z) :
  List.length (hexstr l) = (2 * List.length l)%nat.
Proof.
  induction l as [|b l IH]; [reflexivity|].
  change (hexstr (b :: l)) with (hex_fixed 2 b ++ hexstr l).
  rewrite length_app, hex_fixed_length, IH. cbn [List.length]. lia.
Qed.

(** The digits of a number are the digits of its bytes. *)
Lemma hex_fixed_bytes (k : nat) :
  forall n, hex_fixed (2 * k) n = hexstr (bytes_be k n).
Proof.
  induction k as [|k IH]; intros n.
  - reflexivity.
  - replace (2 * S k)%nat with (2 * k + 2)%nat by lia.
    rewrite hex_fixed_app. cbn [bytes_be]. rewrite hexstr_app, <- IH.
    change (16 ^ Z.of_nat 2) with 256. f_equal.
    unfold hexstr. cbn [flat_map hex_fixed app].
    f_equal; [|f_equal]; f_equal.
    + pose proof (Z.div_mod n 256). pose proof (Z.mod_pos_bound n 256).
      pose proof (Z.div_mod n 16). pose proof (Z.mod_pos_bound n 16).
      Z.to_euclidean_division_equations. lia.
    + Z.to_euclidean_division_equations. lia.
Qed.

Lemma parse_hex_bytes_app (a : nat) :
  forall b s l1 s1 l2 s2,
    parse_hex_bytes a s = Some (l1, s1) ->
    parse_hex_bytes b s1 = Some (l2, s2) ->
    parse_hex_bytes (a + b) s = Some (l1 ++ l2, s2).
Proof.
  induction a as [|a IH]; intros b s l1 s1 l2 s2 H1 H2.
  - cbn in H1. injection H1 as <- <-. exact H2.
  - cbn [Nat.add parse_hex_bytes] in *.
    destruct s as [|c1 [|c2 rest]]; try discriminate.
    destruct (hex_val c1); try discriminate.
    destruct (hex_val c2); try discriminate.
    destruct (parse_hex_bytes a rest) as [[l s']|] eqn:E; try discriminate.
    cbn [fst snd] in H1. injection H1 as <- <-.
    rewrite (IH b rest l s' l2 s2 E H2). reflexivity.
Qed.

Lemma parse_hex_byte (b : Z) (rest : cstring) :
  is_byte b ->
  parse_hex_bytes 1 (hex_fixed 2 b ++ rest) = Some ([b], rest).
Proof.
  intros Hb. unfold is_byte in Hb. cbn [hex_fixed app parse_hex_bytes].
  rewrite !hex_val_hex_digit by (apply Z.mod_pos_bound; lia).
  cbn [fst snd]. do 3 f_equal.
  Z.to_euclidean_division_equations. lia.
Qed.

(** Reading the text of a byte string gives the bytes back. *)
Lemma parse_hexstr (l : list Z) (rest : cstring) :
  Forall is_byte l ->
  parse_hex_bytes (List.length l) (hexstr l ++ rest) = Some (l, rest).
Proof.
  induction 1 as [|b l Hb Hl IH].
  - reflexivity.
  - change (hexstr (b :: l)) with (hex_fixed 2 b ++ hexstr l).
    rewrite <- app_assoc.
    change (List.length (b :: l)) with (1 + List.length l)%nat.
    change (b :: l) with ([b] ++ l).
    eapply parse_hex_bytes_app; [apply parse_hex_byte; exact Hb | exact IH].
Qed.

Lemma parse_hexstr_n (n : nat) (l : list Z) (rest : cstring) :
  List.length l = n -> Forall is_byte l ->
  parse_hex_bytes n (hexstr l ++ rest) = Some (l, rest).
Proof. intros <-. apply parse_hexstr. Qed.

Lemma expect_hyphen_app (rest : cstring) :
  expect_hyphen (hyphen ++ rest) = Some rest.
Proof. reflexivity. Qed.

(** The canonical text of five groups of 4, 2, 2, 2 and 6 bytes is read
    back as their concatenation. *)
Lemma string_to_uuid_groups (g1 g2 g3 g4 g5 : list Z) :
  List.length g1 = 4%nat -> List.length g2 = 2%nat ->
  List.length g3 = 2%nat -> List.length g4 = 2%nat ->
  List.length g5 = 6%nat ->
  Forall is_byte g1 -> Forall is_byte g2 -> Forall is_byte g3 ->
  Forall is_byte g4 -> Forall is_byte g5 ->
  string_to_uuid
    (hexstr g1 ++ hyphen ++ hexstr g2 ++ hyphen ++ hexstr g3 ++ hyphen
     ++ hexstr g4 ++ hyphen ++ hexstr g5)
  = Some (g1 ++ g2 ++ g3 ++ g4 ++ g5).
Proof.
  intros L1 L2 L3 L4 L5 B1 B2 B3 B4 B5. unfold string_to_uuid.
  rewrite (parse_hexstr_n 4 g1) by assumption.
  cbn [fst snd]. rewrite expect_hyphen_app.
  rewrite (parse_hexstr_n 2 g2) by assumption.
  cbn [fst snd]. rewrite expect_hyphen_app.
  rewrite (parse_hexstr_n 2 g3) by assumption.
  cbn [fst snd]. rewrite expect_hyphen_app.
  rewrite (parse_hexstr_n 2 g4) by assumption.
  cbn [fst snd]. rewrite expect_hyphen_app.
  rewrite <- (app_nil_r (hexstr g5)).
  rewrite (parse_hexstr_n 6 g5) by assumption. reflexivity.
Qed.

(** ** Masks *)

(** Keeping the [n] low bits of [x] and setting the bits of [c] above
    them is an addition. *)
Lemma lor_land_ones (x c n : Z) :
  0 <= n ->
  Z.lor (Z.land x (Z.ones n)) (Z.shiftl c n) = x mod 2 ^ n + c * 2 ^ n.
Proof.
  intros Hn. rewrite Z.land_ones by exact Hn.
  assert (D : Z.land (x mod 2 ^ n) (Z.shiftl c n) = 0).
  { apply Z.bits_inj'. intros i Hi.
    rewrite Z.land_spec, Z.bits_0, Z.testbit_mod_pow2 by exact Hn.
    destruct (Z.ltb_spec i n) as [Hlt|Hge].
    - rewrite Z.shiftl_spec_low by exact Hlt. now rewrite andb_false_r.
    - reflexivity. }
  rewrite <- Z.lxor_lor, <- Z.add_nocarry_lxor by exact D.
  now rewrite Z.shiftl_mul_pow2 by exact Hn.
Qed.

Lemma version_nibble (b v : Z) :
  Z.lor (Z.land b 0xf) (16 * v) = b mod 16 + 16 * v.
Proof.
  change 0xf with (Z.ones 4). rewrite (Z.mul_comm 16 v).
  change 16 with (2 ^ 4) at 1. rewrite <- Z.shiftl_mul_pow2 by lia.
  rewrite lor_land_ones by lia. change (2 ^ 4) with 16. lia.
Qed.

Lemma variant_bits (b : Z) : Z.lor (Z.land b 0x3F) 0x80 = b mod 64 + 128.
Proof.
  change 0x3F with (Z.ones 6). change 0x80 with (Z.shiftl 2 6).
  rewrite lor_land_ones by lia. reflexivity.
Qed.

Lemma mask_12_version (r : Z) :
  Z.lor (Z.land r 0xfff) 0x4000 = r mod 4096 + 16384.
Proof.
  change 0xfff with (Z.ones 12). change 0x4000 with (Z.shiftl 4 12).
  rewrite lor_land_ones by lia. reflexivity.
Qed.

Lemma mask_14_variant (r : Z) :
  Z.lor (Z.land r 0x3fff) 0x8000 = r mod 16384 + 32768.
Proof.
  change 0x3fff with (Z.ones 14). change 0x8000 with (Z.shiftl 2 14).
  rewrite lor_land_ones by lia. reflexivity.
Qed.

Lemma mask_16 (r : Z) : Z.land r 0xffff = r mod 65536.
Proof. change 0xffff with (Z.ones 16). now rewrite Z.land_ones by lia. Qed.

Lemma lor_low_high (lo a n : Z) :
  0 <= n -> 0 <= lo < 2 ^ n -> Z.lor lo (Z.shiftl a n) = lo + a * 2 ^ n.
Proof.
  intros Hn Hlo.
  rewrite <- (Z.mod_small lo (2 ^ n)) at 2 by exact Hlo.
  rewrite <- lor_land_ones by exact Hn.
  rewrite Z.land_ones, Z.mod_small by assumption. reflexivity.
Qed.

Lemma lor_lt_pow2 (a b n : Z) :
  0 < n -> 0 <= a < 2 ^ n -> 0 <= b < 2 ^ n -> 0 <= Z.lor a b < 2 ^ n.
Proof.
  intros Hn Ha Hb.
  assert (N : 0 <= Z.lor a b) by (apply Z.lor_nonneg; lia).
  split; [exact N|].
  destruct (Z.eq_dec (Z.lor a b) 0) as [E|E].
  - rewrite E. apply Z.pow_pos_nonneg; lia.
  - apply Z.log2_lt_pow2; [lia|].
    rewrite Z.log2_lor by lia.
    assert (La : Z.log2 a < n).
    { destruct (Z.eq_dec a 0) as [->|]; [exact Hn|].
      apply Z.log2_lt_pow2; lia. }
    assert (Lb : Z.log2 b < n).
    { destruct (Z.eq_dec b 0) as [->|]; [exact Hn|].
      apply Z.log2_lt_pow2; lia. }
    lia.
Qed.

(** The low sixteen bits with bits 8 and 9 set: the low byte is kept and
    the high byte gets its two low bits set. *)
Lemma mask_16_node (r : Z) :
  Z.lor (Z.land r 0xffff) 0x0300
  = r mod 256 + 256 * Z.lor ((r / 256) mod 256) 3.
Proof.
  rewrite mask_16.
  assert (E : r mod 65536 = r mod 256 + ((r / 256) mod 256) * 2 ^ 8).
  { change (2 ^ 8) with 256. Z.to_euclidean_division_equations. lia. }
  assert (B : 0 <= r mod 256 < 2 ^ 8) by (apply Z.mod_pos_bound; lia).
  rewrite E, <- lor_low_high by (lia || exact B).
  change 0x0300 with (Z.shiftl 3 8).
  rewrite <- Z.lor_assoc, <- Z.shiftl_lor.
  rewrite lor_low_high by (lia || exact B).
  change (2 ^ 8) with 256. lia.
Qed.

Lemma node_octet_byte (h : Z) : is_byte h -> is_byte (Z.lor h 3).
Proof.
  intros H. unfold is_byte in *. change 256 with (2 ^ 8).
  apply lor_lt_pow2; [lia | exact H | lia].
Qed.

(** ** The digests are byte strings of a fixed length *)

Lemma bytes_le_length (k : nat) (n : Z) : List.length (bytes_le k n) = k.
Proof. unfold bytes_le. now rewrite length_rev, bytes_be_length. Qed.

Lemma bytes_le_byte (k : nat) (n : Z) : Forall is_byte (bytes_le k n).
Proof. unfold bytes_le. apply Forall_rev, bytes_be_byte. Qed.

Lemma MD5_digest_length (msg : list Z) :
  List.length (MD5.digest msg) = 16%nat.
Proof.
  unfold MD5.digest, MD5.output.
  destruct (fold_left _ _ _) as [[[a b] c] d].
  rewrite !length_app, !bytes_le_length. reflexivity.
Qed.

Lemma MD5_digest_byte (msg : list Z) : Forall is_byte (MD5.digest msg).
Proof.
  unfold MD5.digest, MD5.output.
  destruct (fold_left _ _ _) as [[[a b] c] d].
  repeat (apply Forall_app; split; [apply bytes_le_byte|]).
  apply bytes_le_byte.
Qed.

Lemma SHA1_digest_length (msg : list Z) :
  List.length (SHA1.digest msg) = 20%nat.
Proof.
  unfold SHA1.digest, SHA1.output.
  destruct (fold_left _ _ _) as [[[[a b] c] d] e].
  rewrite !length_app, !bytes_be_length. reflexivity.
Qed.

Lemma SHA1_digest_byte (msg : list Z) : Forall is_byte (SHA1.digest msg).
Proof.
  unfold SHA1.digest, SHA1.output.
  destruct (fold_left _ _ _) as [[[[a b] c] d] e].
  repeat (apply Forall_app; split; [apply bytes_be_byte|]).
  apply bytes_be_byte.
Qed.

(** The published test vectors: RFC 1321, appendix A.5, and FIPS 180. *)
Example MD5_empty :
  hexstr (MD5.digest []) = lit "d41d8cd98f00b204e9800998ecf8427e".
Proof. vm_compute. reflexivity. Qed.

Example MD5_abc :
  hexstr (MD5.digest (lit "abc")) = lit "900150983cd24fb0d6963f7d28e17f72".
Proof. vm_compute. reflexivity. Qed.

Example MD5_two_blocks :
  hexstr (MD5.digest (lit
    "12345678901234567890123456789012345678901234567890123456789012345678901234567890"))
  = lit "57edf4a22be3c955ac49da2e2107b67a".
Proof. vm_compute. reflexivity. Qed.

Example SHA1_empty :
  hexstr (SHA1.digest [])
  = lit "da39a3ee5e6b4b0d3255bfef95601890afd80709".
Proof. vm_compute. reflexivity. Qed.

Example SHA1_abc :
  hexstr (SHA1.digest (lit "abc"))
  = lit "a9993e364706816aba3e25717850c26c9cd0d89d".
Proof. vm_compute. reflexivity. Qed.

Example SHA1_two_blocks :
  hexstr (SHA1.digest (lit
    "abcdbcdecdefdefgefghfghighijhijkijkljklmklmnlmnomnopnopq"))
  = lit "84983e441c3bd26ebaae4aa1f95129e5e54670f1".
Proof. vm_compute. reflexivity. Qed.

(** ** What the parser reads from each format *)

Lemma hexstr_1 (a : Z) : hex_fixed 2 a = hexstr [a].
Proof. unfold hexstr. cbn [flat_map]. now rewrite app_nil_r. Qed.

Lemma version_byte (b v : Z) :
  0 <= v < 16 -> is_byte (Z.lor (Z.land b 0xf) (16 * v)).
Proof.
  intros Hv. rewrite version_nibble. unfold is_byte.
  pose proof (Z.mod_pos_bound b 16). lia.
Qed.

Lemma variant_byte (b : Z) : is_byte (Z.lor (Z.land b 0x3F) 0x80).
Proof.
  rewrite variant_bits. unfold is_byte.
  pose proof (Z.mod_pos_bound b 64). lia.
Qed.

Lemma string_to_uuid_16 (b0 b1 b2 b3 b4 b5 b6 b7 : Z)
                        (b8 b9 b10 b11 b12 b13 b14 b15 : Z) :
  Forall is_byte
         [b0; b1; b2; b3; b4; b5; b6; b7; b8; b9; b10; b11; b12; b13; b14; b15] ->
  string_to_uuid
    (hex_fixed 2 b0 ++ hex_fixed 2 b1 ++ hex_fixed 2 b2 ++ hex_fixed 2 b3
     ++ hyphen ++ hex_fixed 2 b4 ++ hex_fixed 2 b5
     ++ hyphen ++ hex_fixed 2 b6 ++ hex_fixed 2 b7
     ++ hyphen ++ hex_fixed 2 b8 ++ hex_fixed 2 b9
     ++ hyphen ++ hex_fixed 2 b10 ++ hex_fixed 2 b11 ++ hex_fixed 2 b12
     ++ hex_fixed 2 b13 ++ hex_fixed 2 b14 ++ hex_fixed 2 b15)
  = Some [b0; b1; b2; b3; b4; b5; b6; b7; b8; b9; b10; b11; b12; b13; b14; b15].
Proof.
  intros B. split_Forall.
  etransitivity;
    [| apply (string_to_uuid_groups [b0; b1; b2; b3] [b4; b5] [b6; b7]
                                    [b8; b9] [b10; b11; b12; b13; b14; b15]);
       try reflexivity; solve_Forall].
  reflexivity.
Qed.

(** Cases 3 and 5: the parser reads the sixteen first bytes of the
    digest with the version and the variant overwritten. *)
Lemma string_to_uuid_sprintf_hash (buf : list Z) (v : Z) :
  (16 <= List.length buf)%nat -> Forall is_byte buf -> 0 <= v < 16 ->
  string_to_uuid (sprintf_hash buf (16 * v))
  = Some (set_version_variant v (firstn 16 buf)).
Proof.
  intros Hlen Hb Hv. explode buf Hlen. split_Forall.
  unfold sprintf_hash, set_version_variant. cbn [nth firstn skipn app].
  pose proof (version_byte z5 v Hv). pose proof (variant_byte z7).
  rewrite !printf_0x_2 by assumption.
  apply string_to_uuid_16. solve_Forall.
Qed.

(** Case 4: the parser reads the bytes of the six random words, cut to
    their field widths, with the version and the variant overwritten. *)
Lemma string_to_uuid_sprintf_v4 (r0 r1 r2 r3 r4 r5 : Z) :
  0 <= r0 < 4294967296 -> 0 <= r5 < 4294967296 ->
  string_to_uuid (sprintf_v4 r0 r1 r2 r3 r4 r5)
  = Some (set_version_variant 4
            (bytes_be 4 r0 ++ bytes_be 2 r1 ++ bytes_be 2 r2
             ++ bytes_be 2 r3 ++ bytes_be 2 r4 ++ bytes_be 4 r5)).
Proof.
  intros H0 H5. unfold sprintf_v4.
  rewrite mask_16, mask_12_version, mask_14_variant, mask_16.
  pose proof (Z.mod_pos_bound r1 65536). pose proof (Z.mod_pos_bound r2 4096).
  pose proof (Z.mod_pos_bound r3 16384). pose proof (Z.mod_pos_bound r4 65536).
  rewrite !printf_0x_8, !printf_0x_4 by lia.
  change 8%nat with (2 * 4)%nat. change 4%nat with (2 * 2)%nat at 2 3 4 5.
  rewrite !hex_fixed_bytes.
  rewrite <- hexstr_app.
  rewrite string_to_uuid_groups;
    [| first [ rewrite ?length_app, ?bytes_be_length; reflexivity
             | apply bytes_be_byte
             | apply Forall_app; split; apply bytes_be_byte ] ..].
  f_equal. unfold set_version_variant. cbn [bytes_be app nth firstn skipn].
  rewrite version_nibble, variant_bits.
  list_eq; Z.to_euclidean_division_equations; lia.
Qed.

Lemma parse_hex_bytes_S (n : nat) (c1 c2 : Z) (rest : cstring) :
  parse_hex_bytes (S n) (c1 :: c2 :: rest)
  = (h <-? hex_val c1 ;;
     l <-? hex_val c2 ;;
     r <-? parse_hex_bytes n rest ;;
     Some ((16 * h + l) :: fst r, snd r)).
Proof. reflexivity. Qed.

Lemma parse_hex_bytes_0 (s : cstring) : parse_hex_bytes 0 s = Some ([], s).
Proof. reflexivity. Qed.

Lemma expect_hyphen_cons (c : Z) (rest : cstring) :
  expect_hyphen (c :: rest) = if c =? 45 then Some rest else None.
Proof. reflexivity. Qed.

Lemma string_to_uuid_splice (a b : cstring) :
  List.length a = 18%nat ->
  string_to_uuid (a ++ b)
  = (h <-? uuid_head a ;; t <-? uuid_tail b ;; Some (h ++ t)).
Proof.
  intros H. do 18 (explode_step a H).
  destruct a as [|? a]; [|cbn [List.length] in H; lia].
  unfold string_to_uuid, uuid_head. cbn [app].
  repeat first
    [ rewrite parse_hex_bytes_S
    | rewrite parse_hex_bytes_0
    | rewrite expect_hyphen_cons
    | progress cbn [fst snd]
    | match goal with
      | |- context [hex_val ?c] => destruct (hex_val c); [|reflexivity]
      | |- context [?c =? 45] => destruct (c =? 45); [|reflexivity]
      end ].
  unfold uuid_tail.
  destruct (expect_hyphen b) as [s3|]; [|reflexivity].
  destruct (parse_hex_bytes 2 s3) as [g4|]; [|reflexivity].
  destruct (expect_hyphen (snd g4)) as [s4|]; [|reflexivity].
  destruct (parse_hex_bytes 6 s4) as [g5|]; [|reflexivity].
  destruct (snd g5); reflexivity.
Qed.

Lemma parse_hex_bytes_length (n : nat) :
  forall s l r, parse_hex_bytes n s = Some (l, r) ->
                List.length l = n /\ List.length s = (2 * n + List.length r)%nat.
Proof.
  induction n as [|n IH]; intros s l r H.
  - cbn in H. injection H as <- <-. split; reflexivity.
  - destruct s as [|c1 [|c2 rest]]; try discriminate.
    rewrite parse_hex_bytes_S in H.
    destruct (hex_val c1); try discriminate.
    destruct (hex_val c2); try discriminate.
    destruct (parse_hex_bytes n rest) as [[l' r']|] eqn:E; try discriminate.
    cbn [fst snd] in H. injection H as <- <-.
    destruct (IH _ _ _ E) as [L1 L2].
    cbn [List.length]. split; lia.
Qed.

Lemma expect_hyphen_length (s r : cstring) :
  expect_hyphen s = Some r -> List.length s = S (List.length r).
Proof.
  destruct s as [|c rest]; [discriminate|].
  rewrite expect_hyphen_cons. destruct (c =? 45); [|discriminate].
  intros [= <-]. reflexivity.
Qed.

Lemma uuid_head_length (a : cstring) (h : list Z) :
  uuid_head a = Some h -> List.length h = 8%nat /\ List.length a = 18%nat.
Proof.
  unfold uuid_head. intros H.
  destruct (parse_hex_bytes 4 a) as [[g1 r1]|] eqn:E1; [|discriminate].
  cbn [fst snd] in H.
  destruct (expect_hyphen r1) as [s1|] eqn:F1; [|discriminate].
  destruct (parse_hex_bytes 2 s1) as [[g2 r2]|] eqn:E2; [|discriminate].
  cbn [fst snd] in H.
  destruct (expect_hyphen r2) as [s2|] eqn:F2; [|discriminate].
  destruct (parse_hex_bytes 2 s2) as [[g3 r3]|] eqn:E3; [|discriminate].
  cbn [fst snd] in H. destruct r3; [|discriminate]. injection H as <-.
  apply parse_hex_bytes_length in E1, E2, E3.
  apply expect_hyphen_length in F1, F2.
  rewrite !length_app. cbn [List.length] in *. lia.
Qed.

Lemma uuid_tail_length (b : cstring) (t : list Z) :
  uuid_tail b = Some t -> List.length t = 8%nat /\ List.length b = 18%nat.
Proof.
  unfold uuid_tail. intros H.
  destruct (expect_hyphen b) as [s3|] eqn:F3; [|discriminate].
  destruct (parse_hex_bytes 2 s3) as [[g4 r4]|] eqn:E4; [|discriminate].
  cbn [fst snd] in H.
  destruct (expect_hyphen r4) as [s4|] eqn:F4; [|discriminate].
  destruct (parse_hex_bytes 6 s4) as [[g5 r5]|] eqn:E5; [|discriminate].
  cbn [fst snd] in H. destruct r5; [|discriminate]. injection H as <-.
  apply parse_hex_bytes_length in E4, E5.
  apply expect_hyphen_length in F3, F4.
  rewrite !length_app. cbn [List.length] in *. lia.
Qed.

(** Only strings of 36 characters are read as a uuid, and they are read
    as sixteen bytes. *)
Lemma string_to_uuid_length (s : cstring) (u : pg_uuid_t) :
  string_to_uuid s = Some u ->
  List.length s = 36%nat /\ List.length u = 16%nat.
Proof.
  unfold string_to_uuid. intros H.
  destruct (parse_hex_bytes 4 s) as [[g1 r1]|] eqn:E1; [|discriminate].
  cbn [fst snd] in H.
  destruct (expect_hyphen r1) as [s1|] eqn:F1; [|discriminate].
  destruct (parse_hex_bytes 2 s1) as [[g2 r2]|] eqn:E2; [|discriminate].
  cbn [fst snd] in H.
  destruct (expect_hyphen r2) as [s2|] eqn:F2; [|discriminate].
  destruct (parse_hex_bytes 2 s2) as [[g3 r3]|] eqn:E3; [|discriminate].
  cbn [fst snd] in H.
  destruct (expect_hyphen r3) as [s3|] eqn:F3; [|discriminate].
  destruct (parse_hex_bytes 2 s3) as [[g4 r4]|] eqn:E4; [|discriminate].
  cbn [fst snd] in H.
  destruct (expect_hyphen r4) as [s4|] eqn:F4; [|discriminate].
  destruct (parse_hex_bytes 6 s4) as [[g5 r5]|] eqn:E5; [|discriminate].
  cbn [fst snd] in H. destruct r5; [|discriminate]. injection H as <-.
  apply parse_hex_bytes_length in E1, E2, E3, E4, E5.
  apply expect_hyphen_length in F1, F2, F3, F4.
  rewrite !length_app. cbn [List.length] in *. lia.
Qed.

(** A string of 36 characters is read in two halves. *)
Lemma string_to_uuid_halves (s : cstring) (u : pg_uuid_t) :
  string_to_uuid s = Some u ->
  uuid_head (firstn 18 s) = Some (firstn 8 u)
  /\ uuid_tail (skipn 18 s) = Some (skipn 8 u).
Proof.
  intros H. pose proof (string_to_uuid_length s u H) as [Ls Lu].
  rewrite <- (firstn_skipn 18 s) in H.
  rewrite string_to_uuid_splice in H by (rewrite length_firstn; lia).
  destruct (uuid_head (firstn 18 s)) as [h|] eqn:Eh; [|discriminate].
  destruct (uuid_tail (skipn 18 s)) as [t|] eqn:Et; [|discriminate].
  injection H as <-.
  apply uuid_head_length in Eh. destruct Eh as [Lh _].
  rewrite <- Lh. split; f_equal.
  - rewrite firstn_app, Nat.sub_diag, firstn_all, firstn_O.
    symmetry. apply app_nil_r.
  - rewrite skipn_app, Nat.sub_diag, skipn_all, skipn_O. reflexivity.
Qed.

(** The text written by [uuid_generate_v1mc] is read as the two bytes of
    the clock sequence and the six bytes of the node. *)
Lemma uuid_tail_sprintf_v1mc (r0 r1 r2 : Z) :
  0 <= r2 < 4294967296 ->
  uuid_tail (sprintf_v1mc r0 r1 r2)
  = Some (bytes_be 2 (r0 mod 16384 + 32768)
          ++ [Z.lor ((r1 / 256) mod 256) 3; r1 mod 256]
          ++ bytes_be 4 r2).
Proof.
  intros H2. unfold sprintf_v1mc, uuid_tail.
  rewrite mask_14_variant, mask_16_node.
  pose proof (Z.mod_pos_bound r0 16384).
  pose proof (Z.mod_pos_bound r1 256).
  assert (N : is_byte (Z.lor ((r1 / 256) mod 256) 3)).
  { apply node_octet_byte. apply Z.mod_pos_bound. lia. }
  unfold is_byte in N.
  rewrite !printf_0x_4, printf_0x_8 by lia.
  change 8%nat with (2 * 4)%nat. change 4%nat with (2 * 2)%nat at 1 2.
  rewrite !hex_fixed_bytes, expect_hyphen_app.
  rewrite (parse_hexstr_n 2) by (apply bytes_be_length || apply bytes_be_byte).
  cbn [fst snd]. rewrite expect_hyphen_app, <- hexstr_app.
  rewrite <- (app_nil_r (hexstr _)).
  rewrite (parse_hexstr_n 6);
    [| rewrite length_app, !bytes_be_length; reflexivity
     | apply Forall_app; split; apply bytes_be_byte ].
  cbn [fst snd]. do 3 f_equal.
  cbn [bytes_be app]. list_eq; Z.to_euclidean_division_equations; lia.
Qed.

(** ** Runs of the generators: lemmas *)

Lemma w32_range (x : Z) : 0 <= w32 x < 4294967296.
Proof. apply Z.mod_pos_bound. lia. Qed.

Lemma draw_range (w : world) (i : nat) : 0 <= draw w i < 4294967296.
Proof. apply w32_range. Qed.

Lemma insert_at_perm (A : Type) (k : nat) (x : A) (l : list A) :
  Permutation (insert_at k x l) (x :: l).
Proof.
  unfold insert_at. rewrite <- (firstn_skipn k l) at 3.
  symmetry. apply Permutation_middle.
Qed.

(** Whatever the order of evaluation, the arguments are the values drawn,
    each one once. *)
Lemma place_args_perm (A : Type) (order : list nat) (f : nat -> A) (n : nat) :
  forall j acc,
    Permutation (place_args order f j n acc) (acc ++ map f (seq j n)).
Proof.
  induction n as [|n IH]; intros j acc; cbn [place_args seq map].
  - now rewrite app_nil_r.
  - rewrite IH, insert_at_perm. cbn [app]. apply Permutation_middle.
Qed.

Lemma place_args_last (A : Type) (order : list nat) (f : nat -> A) (n : nat) :
  forall j acc,
    place_args order f j (S n) acc
    = insert_at (nth (j + n) order 0%nat) (f (j + n)%nat)
                (place_args order f j n acc).
Proof.
  induction n as [|n IH]; intros j acc.
  - cbn [place_args]. now rewrite Nat.add_0_r.
  - change (place_args order f j (S (S n)) acc)
      with (place_args order f (S j) (S n)
              (insert_at (nth j order 0%nat) (f j) acc)).
    rewrite IH. now rewrite Nat.add_succ_r.
Qed.

Lemma place_args_order_ext (A : Type) (order order' : list nat)
      (f : nat -> A) (n : nat) :
  forall j acc,
    (forall i, (j <= i < j + n)%nat -> nth i order 0%nat = nth i order' 0%nat) ->
    place_args order f j n acc = place_args order' f j n acc.
Proof.
  induction n as [|n IH]; intros j acc H; cbn [place_args].
  - reflexivity.
  - rewrite (H j) by lia. apply IH. intros i Hi. apply H. lia.
Qed.

Lemma insert_at_middle (A : Type) (x : A) (l1 l2 : list A) :
  insert_at (List.length l1) x (l1 ++ l2) = l1 ++ x :: l2.
Proof.
  unfold insert_at.
  rewrite firstn_app, skipn_app, Nat.sub_diag, firstn_all, skipn_all.
  cbn [firstn skipn app]. now rewrite app_nil_r.
Qed.

(** Every order of evaluation has its list: any arrangement of the values
    drawn is the list of arguments for some [order]. *)
Lemma place_args_every_order (A : Type) (f : nat -> A) (n : nat) :
  forall l : list A,
    Permutation l (map f (seq 0 n)) ->
    exists order : list nat,
      List.length order = n /\ place_args order f 0 n [] = l.
Proof.
  induction n as [|n IH]; intros l P.
  - exists []. split; [reflexivity|].
    symmetry. apply Permutation_nil. now symmetry.
  - rewrite seq_S, map_app in P. cbn [Nat.add map] in P.
    assert (I : In (f n) l).
    { apply (Permutation_in (f n) (Permutation_sym P)).
      apply in_or_app. right. now left. }
    apply in_split in I. destruct I as (l1 & l2 & ->).
    apply Permutation_app_inv in P. rewrite app_nil_r in P.
    destruct (IH _ P) as (order0 & L0 & E0).
    exists (order0 ++ [List.length l1]). split.
    + rewrite length_app, L0. cbn [List.length]. lia.
    + rewrite place_args_last. cbn [Nat.add].
      rewrite <- L0 at 1. rewrite nth_middle.
      rewrite (place_args_order_ext _ _ order0).
      * rewrite E0. apply insert_at_middle.
      * intros i Hi. apply app_nth1. lia.
Qed.

(** The two usual orders. *)
Lemma place_args_right_to_left (A : Type) (f : nat -> A) :
  place_args right_to_left f 0 3 [] = [f 2; f 1; f 0]%nat
  /\ place_args right_to_left f 0 6 [] = [f 5; f 4; f 3; f 2; f 1; f 0]%nat.
Proof. split; reflexivity. Qed.

Lemma place_args_left_to_right (A : Type) (f : nat -> A) :
  place_args left_to_right f 0 3 [] = [f 0; f 1; f 2]%nat
  /\ place_args left_to_right f 0 6 [] = [f 0; f 1; f 2; f 3; f 4; f 5]%nat.
Proof. split; reflexivity. Qed.

Lemma call_args_perm (w : world) (n : nat) :
  Permutation (call_args w n) (map (draw w) (seq 0 n)).
Proof. apply (place_args_perm _ _ _ n 0 []). Qed.

Lemma call_args_range (w : world) (n : nat) :
  Forall (fun r => 0 <= r < 4294967296) (call_args w n).
Proof.
  eapply Permutation_Forall; [symmetry; apply call_args_perm|].
  apply Forall_forall. intros r Hr. apply in_map_iff in Hr.
  destruct Hr as (i & <- & _). apply draw_range.
Qed.

Lemma arg_range (w : world) (n i : nat) : 0 <= arg w n i < 4294967296.
Proof.
  unfold arg. pose proof (call_args_range w n) as H.
  revert i. induction H as [|r l Hr Hl IH]; intros [|i]; cbn [nth];
    try lia; auto.
Qed.

(** Each argument is one of the values drawn by the call. *)
Lemma arg_in_draws (w : world) (n i : nat) :
  (i < n)%nat -> In (arg w n i) (map (draw w) (seq 0 n)).
Proof.
  intros Hi. apply (Permutation_in _ (call_args_perm w n)).
  unfold arg. apply nth_In.
  rewrite (Permutation_length (call_args_perm w n)), length_map, length_seq.
  exact Hi.
Qed.

Lemma sprintf_args_3 (w : world) :
  sprintf_args 3 w = (Ok (call_args w 3), after_draws w 3).
Proof. reflexivity. Qed.

Lemma sprintf_args_6 (w : world) :
  sprintf_args 6 w = (Ok (call_args w 6), after_draws w 6).
Proof. reflexivity. Qed.

Lemma v1mc_buf_run (w : world) :
  v1mc_buf w
  = (Ok (sprintf_v1mc (arg w 3 0) (arg w 3 1) (arg w 3 2)), after_draws w 3).
Proof. reflexivity. Qed.

Lemma uuid_in_run (s : cstring) (u : pg_uuid_t) (w : world) :
  string_to_uuid s = Some u -> uuid_in s w = (Ok u, w).
Proof. intros H. unfold uuid_in. now rewrite H. Qed.

Lemma internal_uuid_create_0 (p : cstring) (len : Z) (w : world) :
  internal_uuid_create 0 None (Some p) len w = uuid_in (strlcpy p 37) w.
Proof. reflexivity. Qed.

Lemma internal_uuid_create_3 (ns p : list Z) (len : Z) (w : world) :
  internal_uuid_create 3 (Some ns) (Some p) len w
  = uuid_in (sprintf_hash
               (MD5.digest (firstn 16 ns ++ firstn (Z.to_nat len) p))
               (16 * 3)) w.
Proof. reflexivity. Qed.

Lemma internal_uuid_create_5 (ns p : list Z) (len : Z) (w : world) :
  internal_uuid_create 5 (Some ns) (Some p) len w
  = uuid_in (sprintf_hash
               (SHA1.digest (firstn 16 ns ++ firstn (Z.to_nat len) p))
               (16 * 5)) w.
Proof. reflexivity. Qed.

Lemma internal_uuid_create_4 (w : world) :
  internal_uuid_create 4 None None 0 w
  = uuid_in (sprintf_v4 (arg w 6 0) (arg w 6 1) (arg w 6 2)
                        (arg w 6 3) (arg w 6 4) (arg w 6 5))
            (after_draws w 6).
Proof. reflexivity. Qed.

Lemma text_length (name : text) :
  firstn (Z.to_nat (VARSIZE name - VARHDRSZ)) (VARDATA name) = name.
Proof.
  unfold VARSIZE, VARHDRSZ, VARDATA.
  replace (Z.to_nat (4 + Z.of_nat (List.length name) - 4))
    with (List.length name) by lia.
  apply firstn_all.
Qed.

Lemma uuid_generate_v3_run (ns : pg_uuid_t) (name : text) (w : world) :
  uuid_generate_v3 ns name w
  = (Ok (set_version_variant 3
           (firstn 16 (MD5.digest (firstn 16 ns ++ name)))), w).
Proof.
  unfold uuid_generate_v3. rewrite internal_uuid_create_3, text_length.
  apply uuid_in_run. apply string_to_uuid_sprintf_hash.
  - rewrite MD5_digest_length. lia.
  - apply MD5_digest_byte.
  - lia.
Qed.

Lemma uuid_generate_v5_run (ns : pg_uuid_t) (name : text) (w : world) :
  uuid_generate_v5 ns name w
  = (Ok (set_version_variant 5
           (firstn 16 (SHA1.digest (firstn 16 ns ++ name)))), w).
Proof.
  unfold uuid_generate_v5. rewrite internal_uuid_create_5, text_length.
  apply uuid_in_run. apply string_to_uuid_sprintf_hash.
  - rewrite SHA1_digest_length. lia.
  - apply SHA1_digest_byte.
  - lia.
Qed.

Lemma uuid_generate_v4_run (w : world) :
  uuid_generate_v4 w
  = (Ok (set_version_variant 4
           (bytes_be 4 (arg w 6 0) ++ bytes_be 2 (arg w 6 1)
            ++ bytes_be 2 (arg w 6 2) ++ bytes_be 2 (arg w 6 3)
            ++ bytes_be 2 (arg w 6 4) ++ bytes_be 4 (arg w 6 5))),
     after_draws w 6).
Proof.
  unfold uuid_generate_v4. rewrite internal_uuid_create_4.
  apply uuid_in_run. apply string_to_uuid_sprintf_v4; apply arg_range.
Qed.

(** Case 1 of the [switch], in terms of what the provider reports. *)
Lemma internal_uuid_strbuf_1 (ptr : option cstring) (len : Z) (w : world) :
  internal_uuid_strbuf 1 None ptr len w
  = (if create_status w =? uuid_s_ok then
       if string_status w =? uuid_s_ok then
         match host_str w with
         | Some s =>
             match ptr with
             | Some p =>
                 if len <=? 36
                 then
                   match strcpy_at 40 (strlcpy s 37) (Z.to_nat (36 - len)) p
                   with
                   | Some strbuf => Ok strbuf
                   | None => Undefined Overrun
                   end
                 else Ok (strlcpy s 37)
             | None => Ok (strlcpy s 37)
             end
         | None => Undefined NullRead
         end
       else Error (library_failure (string_status w))
     else Error (library_failure (create_status w)),
     after_create w).
Proof.
  unfold internal_uuid_strbuf, create_status, string_status, host_str,
    after_create, bind, uuid_create, uuid_to_string, ereport, undefined, ret.
  change (1 =? 0) with false. change (1 =? 1) with true. cbv beta iota.
  destruct (host_uuid w (host_count w)) as [uu st]. cbn [fst snd].
  destruct (w32 st =? uuid_s_ok); [|reflexivity].
  cbv beta. cbn [host_string].
  destruct (host_string w uu) as [str st2]. cbn [fst snd].
  destruct (w32 st2 =? uuid_s_ok); [|reflexivity].
  destruct str as [s|]; [|reflexivity].
  destruct ptr as [p|]; [|reflexivity].
  destruct (len <=? 36); [|reflexivity].
  destruct (strcpy_at 40 (strlcpy s 37) (Z.to_nat (36 - len)) p); reflexivity.
Qed.

Lemma strcpy_at_18 (s buf : cstring) :
  List.length s = 36%nat -> List.length buf = 18%nat ->
  strcpy_at 40 s 18 buf = Some (firstn 18 s ++ buf).
Proof. intros H Hb. unfold strcpy_at. now rewrite H, Hb. Qed.

Lemma strlcpy_36 (s : cstring) :
  List.length s = 36%nat -> strlcpy s 37 = s.
Proof.
  intros H. unfold strlcpy. change (37 - 1)%nat with 36%nat.
  rewrite <- H. apply firstn_all.
Qed.

Lemma sprintf_v1mc_length (r0 r1 r2 : Z) :
  0 <= r2 < 4294967296 -> List.length (sprintf_v1mc r0 r1 r2) = 18%nat.
Proof.
  intros H. unfold sprintf_v1mc.
  rewrite mask_14_variant, mask_16_node.
  pose proof (Z.mod_pos_bound r0 16384).
  pose proof (Z.mod_pos_bound r1 256).
  assert (N : is_byte (Z.lor ((r1 / 256) mod 256) 3)).
  { apply node_octet_byte. apply Z.mod_pos_bound. lia. }
  unfold is_byte in N.
  rewrite !printf_0x_4, printf_0x_8 by lia.
  rewrite !length_app, !hex_fixed_length. reflexivity.
Qed.

(** A successful [uuid_generate_v1]: both provider steps succeeded and
    the value is what the parser reads from the provider's string. *)
Lemma uuid_generate_v1_ok (w : world) (u : pg_uuid_t) :
  fst (uuid_generate_v1 w) = Ok u ->
  create_status w = uuid_s_ok /\ string_status w = uuid_s_ok
  /\ exists s, host_str w = Some s
               /\ string_to_uuid (strlcpy s 37) = Some u.
Proof.
  unfold uuid_generate_v1, internal_uuid_create, bind.
  rewrite internal_uuid_strbuf_1.
  destruct (Z.eqb_spec (create_status w) uuid_s_ok) as [E1|]; [|discriminate].
  destruct (Z.eqb_spec (string_status w) uuid_s_ok) as [E2|]; [|discriminate].
  destruct (host_str w) as [s|]; [|discriminate].
  unfold uuid_in.
  destruct (string_to_uuid (strlcpy s 37)) as [u'|] eqn:E; [|discriminate].
  cbn [fst ret]. intros [= <-].
  repeat split; try assumption. exists s. auto.
Qed.

(** A successful [uuid_generate_v1mc]: the first eight bytes are read
    from the first 18 characters of the provider's string, the last eight
    from the random text. *)
Lemma uuid_generate_v1mc_ok (w : world) (u : pg_uuid_t) :
  fst (uuid_generate_v1mc w) = Ok u ->
  create_status w = uuid_s_ok /\ string_status w = uuid_s_ok
  /\ exists s h, host_str w = Some s
                 /\ uuid_head (firstn 18 s) = Some h
                 /\ u = h ++ bytes_be 2 (arg w 3 0 mod 16384 + 32768)
                          ++ [Z.lor ((arg w 3 1 / 256) mod 256) 3;
                              arg w 3 1 mod 256]
                          ++ bytes_be 4 (arg w 3 2).
Proof.
  unfold uuid_generate_v1mc, bind at 1. rewrite v1mc_buf_run.
  unfold internal_uuid_create, bind.
  rewrite internal_uuid_strbuf_1.
  change (create_status (after_draws w 3)) with (create_status w).
  change (string_status (after_draws w 3)) with (string_status w).
  change (host_str (after_draws w 3)) with (host_str w).
  destruct (Z.eqb_spec (create_status w) uuid_s_ok) as [E1|]; [|discriminate].
  destruct (Z.eqb_spec (string_status w) uuid_s_ok) as [E2|]; [|discriminate].
  destruct (host_str w) as [s|]; [|discriminate].
  change (18 <=? 36) with true. cbv iota.
  change (Z.to_nat (36 - 18)) with 18%nat.
  set (buf := sprintf_v1mc (arg w 3 0) (arg w 3 1) (arg w 3 2)).
  assert (Lb : List.length buf = 18%nat)
    by (apply sprintf_v1mc_length, arg_range).
  unfold strcpy_at. rewrite Lb.
  change (18 + 18 + 1 <=? 40)%nat with true. cbv iota.
  unfold uuid_in.
  match goal with |- context [string_to_uuid ?x] =>
    destruct (string_to_uuid x) as [u'|] eqn:E; [|discriminate] end.
  cbn [fst ret]. intros [= <-].
  repeat split; try assumption. exists s.
  destruct (Nat.leb_spec 18 (List.length (strlcpy s 37))) as [Hle|Hgt].
  - unfold strlcpy in E, Hle. change (37 - 1)%nat with 36%nat in E, Hle.
    rewrite firstn_firstn in E. change (Nat.min 18 36) with 18%nat in E.
    rewrite length_firstn in Hle.
    rewrite string_to_uuid_splice in E by (rewrite length_firstn; lia).
    destruct (uuid_head (firstn 18 s)) as [h|]; [|discriminate].
    unfold buf in E.
    rewrite uuid_tail_sprintf_v1mc in E by apply arg_range.
    injection E as <-. exists h. auto.
  - apply string_to_uuid_length in E. lia.
Qed.

Lemma Ok_inj (A : Type) (a b : A) : Ok a = Ok b -> a = b.
Proof. intros [= H]. exact H. Qed.

Lemma set_version_variant_bits (v : Z) (l : list Z) :
  (9 <= List.length l)%nat -> 0 <= v < 16 ->
  uuid_version (set_version_variant v l) = v
  /\ uuid_variant (set_version_variant v l) = 2
  /\ 0x80 <= nth 8 (set_version_variant v l) 0 <= 0xBF.
Proof.
  intros H Hv. do 9 (explode_step l H).
  unfold uuid_version, uuid_variant, set_version_variant.
  cbn [firstn skipn app nth].
  rewrite version_nibble, variant_bits.
  rewrite !Z.shiftr_div_pow2 by lia.
  change (2 ^ 4) with 16. change (2 ^ 6) with 64.
  repeat split; Z.to_euclidean_division_equations; lia.
Qed.

Lemma testbit_small (a n i : Z) :
  0 <= a < 2 ^ n -> 0 <= n <= i -> Z.testbit a i = false.
Proof.
  intros Ha Hi. rewrite <- (Z.mod_small a (2 ^ n)) by exact Ha.
  apply Z.mod_pow2_bits_high. exact Hi.
Qed.

Lemma version_byte_bit (b v i : Z) :
  is_byte b -> 0 <= v < 16 ->
  Z.testbit (Z.lor (Z.land b 0xf) (16 * v)) i
  = if (4 <=? i) && (i <? 8) then Z.testbit v (i - 4) else Z.testbit b i.
Proof.
  intros Hb Hv. unfold is_byte in Hb.
  rewrite Z.lor_spec, Z.land_spec.
  change 0xf with (Z.ones 4). rewrite Z.testbit_ones by lia.
  rewrite (Z.mul_comm 16 v). change 16 with (2 ^ 4).
  rewrite <- Z.shiftl_mul_pow2 by lia.
  destruct (Z.leb_spec 0 i) as [H0|H0].
  - rewrite Z.shiftl_spec by exact H0.
    destruct (Z.leb_spec 4 i) as [H4|H4]; destruct (Z.ltb_spec i 8) as [H8|H8];
      destruct (Z.ltb_spec i 4); try lia; cbn [andb orb].
    + now rewrite andb_false_r.
    + rewrite andb_false_r. cbn [orb].
      rewrite (testbit_small v 4), (testbit_small b 8) by lia. reflexivity.
    + rewrite andb_true_r, (Z.testbit_neg_r v) by lia. apply orb_false_r.
  - rewrite !(Z.testbit_neg_r _ i) by lia.
    destruct (Z.leb_spec 4 i); [lia|]. reflexivity.
Qed.

Lemma variant_byte_bit (b i : Z) :
  is_byte b ->
  Z.testbit (Z.lor (Z.land b 0x3F) 0x80) i
  = if (6 <=? i) && (i <? 8) then i =? 7 else Z.testbit b i.
Proof.
  intros Hb. unfold is_byte in Hb.
  rewrite Z.lor_spec, Z.land_spec.
  change 0x3F with (Z.ones 6). rewrite Z.testbit_ones by lia.
  change 0x80 with (2 ^ 7). rewrite Z.pow2_bits_eqb, (Z.eqb_sym 7 i) by lia.
  destruct (Z.leb_spec 0 i) as [H0|H0].
  - destruct (Z.leb_spec 6 i) as [H6|H6]; destruct (Z.ltb_spec i 8) as [H8|H8];
      destruct (Z.ltb_spec i 6); destruct (Z.eqb_spec i 7);
      try lia; cbn [andb orb]; rewrite ?andb_false_r, ?andb_true_r, ?orb_false_r;
      try reflexivity.
    rewrite (testbit_small b 8) by lia. reflexivity.
  - rewrite (Z.testbit_neg_r _ i) by lia.
    destruct (Z.leb_spec 6 i); [lia|]. destruct (Z.eqb_spec i 7); [lia|].
    reflexivity.
Qed.

(** Bit by bit: the version nibble holds [v], the variant bits hold 10,
    and every other bit of the sixteen bytes is kept. *)
Lemma set_version_variant_bit (v : Z) (l : list Z) (k : nat) (i : Z) :
  List.length l = 16%nat -> Forall is_byte l -> 0 <= v < 16 ->
  Z.testbit (nth k (set_version_variant v l) 0) i
  = if version_bit k i then Z.testbit v (i - 4)
    else if variant_bit k i then i =? 7
    else Z.testbit (nth k l 0) i.
Proof.
  intros H B Hv.
  assert (H' : (16 <= List.length l)%nat) by lia.
  explode l H'. destruct l; [|discriminate]. split_Forall.
  unfold set_version_variant, version_bit, variant_bit.
  cbn [firstn skipn app].
  do 6 (destruct k as [|k]; [reflexivity|]).
  destruct k as [|k].
  { cbn [nth Nat.eqb andb]. now apply version_byte_bit. }
  destruct k as [|k]; [reflexivity|].
  destruct k as [|k].
  { cbn [nth Nat.eqb andb]. now apply variant_byte_bit. }
  do 8 (destruct k as [|k]; [reflexivity|]).
  reflexivity.
Qed.

Lemma nth_head_8 (h t : list Z) (i : nat) :
  List.length h = 8%nat -> nth (8 + i) (h ++ t) 0 = nth i t 0.
Proof. intros <-. apply app_nth2_plus. Qed.

Lemma nth_firstn_8 (u : list Z) (t : list Z) (i : nat) :
  (8 <= List.length u)%nat -> (i < 8)%nat ->
  nth i (firstn 8 u ++ t) 0 = nth i u 0.
Proof.
  intros H Hi. rewrite app_nth1 by (rewrite length_firstn; lia).
  rewrite <- (firstn_skipn 8 u) at 2.
  rewrite app_nth1 by (rewrite length_firstn; lia). reflexivity.
Qed.

Lemma hex_fixed_8 (n : Z) : hex_fixed 8 n = hexstr (bytes_be 4 n).
Proof. apply (hex_fixed_bytes 4). Qed.

Lemma hex_fixed_4 (n : Z) : hex_fixed 4 n = hexstr (bytes_be 2 n).
Proof. apply (hex_fixed_bytes 2). Qed.

Lemma flat_map_printf_0x_2 (l : list Z) :
  Forall is_byte l -> flat_map (printf_0x 2) l = hexstr l.
Proof.
  induction 1 as [|b l Hb Hl IH]; [reflexivity|].
  unfold hexstr. cbn [flat_map]. rewrite IH, printf_0x_2 by exact Hb.
  reflexivity.
Qed.

(** A host that packs the v1 layout and prints it with [host_format]
    keeps the contract [host_v1]. *)
Lemma host_format_v1 (uu : uuid_t) :
  v1_layout uu ->
  exists u, string_to_uuid (host_format uu) = Some u
            /\ uuid_version u = 1 /\ uuid_variant u = 2.
Proof.
  intros (H1 & H2 & H3 & H4 & H5 & H6 & H7).
  exists (bytes_be 4 (time_low uu) ++ bytes_be 2 (time_mid uu)
          ++ bytes_be 2 (time_hi_and_version uu)
          ++ [clock_seq_hi_and_reserved uu; clock_seq_low uu] ++ node uu).
  split; [|split].
  - unfold host_format. unfold is_byte in H5.
    rewrite printf_0x_8, !printf_0x_4, !printf_0x_2 by (unfold is_byte; lia).
    rewrite flat_map_printf_0x_2 by exact H7.
    rewrite hex_fixed_8, !hex_fixed_4, !hexstr_1.
    rewrite (app_assoc (hexstr [clock_seq_hi_and_reserved uu])).
    rewrite <- hexstr_app.
    apply string_to_uuid_groups;
      first [ apply bytes_be_length | apply bytes_be_byte | assumption
            | reflexivity | idtac ].
    repeat (apply Forall_cons; [unfold is_byte; lia|]). apply Forall_nil.
  - unfold uuid_version. cbn [bytes_be app nth].
    rewrite Z.shiftr_div_pow2 by lia. change (2 ^ 4) with 16.
    Z.to_euclidean_division_equations. lia.
  - unfold uuid_variant. cbn [bytes_be app nth].
    rewrite Z.shiftr_div_pow2 by lia. change (2 ^ 6) with 64.
    Z.to_euclidean_division_equations. lia.
Qed.

Lemma host_v1_of_layout (w : world) :
  (create_status w = uuid_s_ok ->
   v1_layout (fst (host_uuid w (host_count w)))) ->
  (string_status w = uuid_s_ok ->
   host_str w = Some (host_format (fst (host_uuid w (host_count w))))) ->
  host_v1 w.
Proof.
  intros HL HS E1 E2.
  destruct (host_format_v1 _ (HL E1)) as (u & Hu & Hv & Hr).
  exists (host_format (fst (host_uuid w (host_count w)))), u.
  repeat split; try assumption. apply HS, E2.
Qed.

(** The text of [uuid_generate_v1mc], digit by digit. *)
Lemma sprintf_v1mc_hex (r0 r1 r2 : Z) :
  0 <= r2 < 4294967296 ->
  sprintf_v1mc r0 r1 r2
  = hyphen ++ hex_fixed 4 (Z.lor (Z.land r0 0x3FFF) 0x8000) ++ hyphen
    ++ hex_fixed 4 (Z.lor (Z.land r1 0xffff) 0x0300) ++ hex_fixed 8 r2.
Proof.
  intros H. unfold sprintf_v1mc.
  assert (H0 : 0 <= Z.lor (Z.land r0 0x3FFF) 0x8000 < 65536).
  { rewrite mask_14_variant. pose proof (Z.mod_pos_bound r0 16384). lia. }
  assert (H1 : 0 <= Z.lor (Z.land r1 0xffff) 0x0300 < 65536).
  { rewrite mask_16_node. pose proof (Z.mod_pos_bound r1 256).
    assert (N : is_byte (Z.lor ((r1 / 256) mod 256) 3)).
    { apply node_octet_byte. apply Z.mod_pos_bound. lia. }
    unfold is_byte in N. lia. }
  now rewrite !printf_0x_4, printf_0x_8 by assumption.
Qed.

Lemma v1mc_tail_bytes (r0 r1 r2 : Z) :
  bytes_be 2 (r0 mod 16384 + 32768)
  ++ [Z.lor ((r1 / 256) mod 256) 3; r1 mod 256] ++ bytes_be 4 r2
  = bytes_be 2 (Z.lor (Z.land r0 0x3FFF) 0x8000)
    ++ bytes_be 2 (Z.lor (Z.land r1 0xffff) 0x0300) ++ bytes_be 4 r2.
Proof.
  rewrite mask_14_variant, mask_16_node.
  assert (N : is_byte (Z.lor ((r1 / 256) mod 256) 3)).
  { apply node_octet_byte. apply Z.mod_pos_bound. lia. }
  unfold is_byte in N.
  f_equal. cbn [bytes_be app].
  list_eq; Z.to_euclidean_division_equations; lia.
Qed.

(** ** The properties *)

(** C1: for a 16-byte namespace [ns] and a name, [uuid_generate_v3]
    (resp. [uuid_generate_v5]) returns the sixteen first bytes of the MD5
    (resp. SHA-1) digest of the namespace bytes followed by the name
    bytes, the version nibble of byte 6 overwritten with 0011 (resp.
    0101) and the top two bits of byte 8 with 10; the four last bytes of
    the SHA-1 digest are dropped. *)
Theorem generate_v3_v5_digest (ns : pg_uuid_t) (name : text) (w : world) :
  List.length ns = 16%nat ->
  uuid_generate_v3 ns name w
  = (Ok (set_version_variant 3 (firstn 16 (MD5.digest (ns ++ name)))), w)
  /\ uuid_generate_v5 ns name w
     = (Ok (set_version_variant 5 (firstn 16 (SHA1.digest (ns ++ name)))), w)
  /\ List.length (SHA1.digest (ns ++ name)) = 20%nat
  /\ List.length (MD5.digest (ns ++ name)) = 16%nat.
Proof.
  intros H.
  rewrite uuid_generate_v3_run, uuid_generate_v5_run.
  rewrite (firstn_all2 (n := 16) ns) by lia.
  repeat split.
  - apply SHA1_digest_length.
  - apply MD5_digest_length.
Qed.

Lemma generate_v3_v5_digest_witness :
  List.length ns_dns_bytes = 16%nat
  /\ fst (uuid_generate_v3 ns_dns_bytes (lit "www.example.com")
                           (sample_world 0 0))
     = Ok (set_version_variant 3
             (firstn 16 (MD5.digest (ns_dns_bytes ++ lit "www.example.com")))).
Proof.
  split; [reflexivity|].
  rewrite (proj1 (generate_v3_v5_digest ns_dns_bytes (lit "www.example.com")
                    (sample_world 0 0) eq_refl)).
  reflexivity.
Defined.

(** C3: [uuid_generate_v5] on the DNS namespace constant and the name
    "www.example.com" yields the published reference value
    2ed6657d-e927-568b-95e1-2665a8aea6a2. *)
Theorem generate_v5_known_vector (w : world) :
  (ns <- uuid_ns_dns ;; uuid_generate_v5 ns (lit "www.example.com")) w
  = uuid_in (lit "2ed6657d-e927-568b-95e1-2665a8aea6a2") w
  /\ uuid_in (lit "2ed6657d-e927-568b-95e1-2665a8aea6a2") w
     = (Ok [0x2e; 0xd6; 0x65; 0x7d; 0xe9; 0x27; 0x56; 0x8b;
            0x95; 0xe1; 0x26; 0x65; 0xa8; 0xae; 0xa6; 0xa2], w).
Proof. split; vm_compute; reflexivity. Qed.

(** C4: [uuid_generate_v3] and [uuid_generate_v5] are deterministic: the
    value depends on the namespace and the name alone, whatever the state
    of the random source and of the host, and the call draws nothing from
    the random source. *)
Theorem generate_v3_v5_deterministic
    (ns : pg_uuid_t) (name : text) (w w' : world) :
  fst (uuid_generate_v3 ns name w) = fst (uuid_generate_v3 ns name w')
  /\ fst (uuid_generate_v5 ns name w) = fst (uuid_generate_v5 ns name w')
  /\ snd (uuid_generate_v3 ns name w) = w
  /\ snd (uuid_generate_v5 ns name w) = w.
Proof.
  rewrite !uuid_generate_v3_run, !uuid_generate_v5_run.
  repeat split.
Qed.

(** C5: [uuid_generate_v4] takes no input.  Whatever the order in which
    the build evaluates the six arguments of the [sprintf], they are the
    six outputs of [arc4random] drawn by the call, each one once; the
    value is the sixteen bytes [R] of these arguments (four of them cut
    to sixteen bits) in which the version nibble is set to 0100 and the
    variant bits to 10: every other bit of the value is the bit of [R]
    at its place. *)
Theorem generate_v4_random (w : world) :
  let a := call_args w 6 in
  let R := bytes_be 4 (nth 0 a 0) ++ bytes_be 2 (nth 1 a 0)
           ++ bytes_be 2 (nth 2 a 0) ++ bytes_be 2 (nth 3 a 0)
           ++ bytes_be 2 (nth 4 a 0) ++ bytes_be 4 (nth 5 a 0) in
  let u := set_version_variant 4 R in
  Permutation a
    [draw w 0; draw w 1; draw w 2; draw w 3; draw w 4; draw w 5]
  /\ uuid_generate_v4 w = (Ok u, after_draws w 6)
  /\ List.length R = 16%nat
  /\ List.length u = 16%nat
  /\ uuid_version u = 4
  /\ uuid_variant u = 2
  /\ forall (k : nat) (i : Z),
       Z.testbit (nth k u 0) i
       = if version_bit k i then Z.testbit 4 (i - 4)
         else if variant_bit k i then i =? 7
         else Z.testbit (nth k R 0) i.
Proof.
  intros a R u.
  assert (LR : List.length R = 16%nat).
  { unfold R. rewrite !length_app, !bytes_be_length. reflexivity. }
  assert (BR : Forall is_byte R).
  { unfold R. repeat (apply Forall_app; split; [apply bytes_be_byte|]).
    apply bytes_be_byte. }
  split; [apply (call_args_perm w 6)|].
  split; [apply uuid_generate_v4_run|]. split; [exact LR|]. split.
  { unfold u, set_version_variant.
    rewrite !length_app, length_firstn, length_skipn, LR. reflexivity. }
  destruct (set_version_variant_bits 4 R) as (Hv & Hr & _); [lia|lia|].
  split; [exact Hv|]. split; [exact Hr|].
  intros k i. apply set_version_variant_bit; [exact LR|exact BR|lia].
Qed.

(** C6: the five constant producers take no input, cannot fail and leave
    the world as it is: [uuid_nil] returns sixteen zero bytes and the four
    namespace producers the constants of RFC 4122. *)
Theorem constant_producers (w : world) :
  uuid_nil w = (Ok (repeat 0 16), w)
  /\ uuid_ns_dns w
     = (Ok [0x6b; 0xa7; 0xb8; 0x10; 0x9d; 0xad; 0x11; 0xd1;
            0x80; 0xb4; 0x00; 0xc0; 0x4f; 0xd4; 0x30; 0xc8], w)
  /\ uuid_ns_url w
     = (Ok [0x6b; 0xa7; 0xb8; 0x11; 0x9d; 0xad; 0x11; 0xd1;
            0x80; 0xb4; 0x00; 0xc0; 0x4f; 0xd4; 0x30; 0xc8], w)
  /\ uuid_ns_oid w
     = (Ok [0x6b; 0xa7; 0xb8; 0x12; 0x9d; 0xad; 0x11; 0xd1;
            0x80; 0xb4; 0x00; 0xc0; 0x4f; 0xd4; 0x30; 0xc8], w)
  /\ uuid_ns_x500 w
     = (Ok [0x6b; 0xa7; 0xb8; 0x14; 0x9d; 0xad; 0x11; 0xd1;
            0x80; 0xb4; 0x00; 0xc0; 0x4f; 0xd4; 0x30; 0xc8], w).
Proof. repeat split. Qed.

(** C2: whatever the random source gives and whatever the digest is, a
    value made by a generator of version v in 1, 3, 4, 5 has v in the high
    nibble of byte 6 and binary 10 in the top two bits of byte 8, a byte
    between 0x80 and 0xBF.  Versions 3, 4 and 5 and the variant of v1mc
    are set by the source itself; the version of v1 and v1mc and the
    variant of v1 are those of the host provider's string. *)
Theorem generated_version_variant
    (g : generator) (w : world) (u : pg_uuid_t) :
  host_v1 w ->
  fst (generate g w) = Ok u ->
  uuid_version u = version_of g
  /\ uuid_variant u = 2
  /\ 0x80 <= nth 8 u 0 <= 0xBF.
Proof.
  intros Hhost Hu. destruct g as [| |ns name| |ns name]; cbn [generate version_of] in *.
  - (* v1 *)
    apply uuid_generate_v1_ok in Hu.
    destruct Hu as (E1 & E2 & s & Hs & Hp).
    destruct (Hhost E1 E2) as (s' & u' & Hs' & Hp' & Hv & Hr).
    rewrite Hs in Hs'. injection Hs' as <-.
    pose proof (string_to_uuid_length _ _ Hp') as [Ls _].
    rewrite strlcpy_36 in Hp by exact Ls.
    rewrite Hp in Hp'. injection Hp' as <-.
    repeat split; try assumption.
    + unfold uuid_variant in Hr. rewrite Z.shiftr_div_pow2 in Hr by lia.
      change (2 ^ 6) with 64 in Hr. Z.to_euclidean_division_equations. lia.
    + unfold uuid_variant in Hr. rewrite Z.shiftr_div_pow2 in Hr by lia.
      change (2 ^ 6) with 64 in Hr. Z.to_euclidean_division_equations. lia.
  - (* v1mc *)
    apply uuid_generate_v1mc_ok in Hu.
    destruct Hu as (E1 & E2 & s & h & Hs & Hh & ->).
    destruct (Hhost E1 E2) as (s' & u' & Hs' & Hp' & Hv & Hr).
    rewrite Hs in Hs'. injection Hs' as <-.
    pose proof (string_to_uuid_length _ _ Hp') as [_ Lu].
    apply string_to_uuid_halves in Hp'. destruct Hp' as [Hh' _].
    assert (Eh : h = firstn 8 u') by congruence. subst h. clear Hh'.
    unfold uuid_version, uuid_variant.
    rewrite (nth_firstn_8 u' _ 6) by lia.
    rewrite (nth_head_8 _ _ 0) by (rewrite length_firstn; lia).
    cbn [bytes_be app nth].
    split; [exact Hv|].
    rewrite Z.shiftr_div_pow2 by lia. change (2 ^ 6) with 64.
    pose proof (arg_range w 3 0).
    repeat split; Z.to_euclidean_division_equations; lia.
  - (* v3 *)
    rewrite uuid_generate_v3_run in Hu. apply Ok_inj in Hu. subst u.
    apply set_version_variant_bits; [|lia].
    rewrite length_firstn, MD5_digest_length. cbn. lia.
  - (* v4 *)
    rewrite uuid_generate_v4_run in Hu. apply Ok_inj in Hu. subst u.
    apply set_version_variant_bits; [|lia].
    rewrite !length_app, !bytes_be_length. cbn. lia.
  - (* v5 *)
    rewrite uuid_generate_v5_run in Hu. apply Ok_inj in Hu. subst u.
    apply set_version_variant_bits; [|lia].
    rewrite length_firstn, SHA1_digest_length. cbn. lia.
Qed.

Lemma sample_world_host_v1 : host_v1 (sample_world 0 0).
Proof.
  intros _ _.
  exists (lit "1d19dad6-ba7b-11d1-80b4-00c04fd430c8").
  exists [0x1d; 0x19; 0xda; 0xd6; 0xba; 0x7b; 0x11; 0xd1;
          0x80; 0xb4; 0x00; 0xc0; 0x4f; 0xd4; 0x30; 0xc8].
  repeat split.
Defined.

Lemma generated_version_variant_witness :
  fst (generate Gen_v1mc (sample_world 0 0))
  = Ok [0x1d; 0x19; 0xda; 0xd6; 0xba; 0x7b; 0x11; 0xd1;
        0x9a; 0xfe; 0x9b; 0xbb; 0x12; 0x34; 0x56; 0x78]
  /\ uuid_version [0x1d; 0x19; 0xda; 0xd6; 0xba; 0x7b; 0x11; 0xd1;
                   0x9a; 0xfe; 0x9b; 0xbb; 0x12; 0x34; 0x56; 0x78]
     = version_of Gen_v1mc.
Proof.
  split; [reflexivity|].
  apply (generated_version_variant Gen_v1mc (sample_world 0 0)).
  - exact sample_world_host_v1.
  - reflexivity.
Defined.

(** C7: whatever the random source gives, the node field of a value made
    by [uuid_generate_v1mc] has the multicast bit (bit 0) and the
    local-administration bit (bit 1) of its first octet set; the node
    differs from every address that has one of the two bits clear, as
    every registered hardware address has. *)
Theorem generate_v1mc_node_bits (w : world) (u : pg_uuid_t) :
  fst (uuid_generate_v1mc w) = Ok u ->
  Z.testbit (nth 0 (uuid_node u) 0) 0 = true
  /\ Z.testbit (nth 0 (uuid_node u) 0) 1 = true
  /\ List.length (uuid_node u) = 6%nat
  /\ forall mac : list Z,
       Z.testbit (nth 0 mac 0) 0 = false
       \/ Z.testbit (nth 0 mac 0) 1 = false ->
       uuid_node u <> mac.
Proof.
  intros Hu. apply uuid_generate_v1mc_ok in Hu.
  destruct Hu as (_ & _ & s & h & _ & Hh & ->).
  apply uuid_head_length in Hh. destruct Hh as [Lh _].
  assert (N : uuid_node
                (h ++ bytes_be 2 (arg w 3 0 mod 16384 + 32768)
                   ++ [Z.lor ((arg w 3 1 / 256) mod 256) 3; arg w 3 1 mod 256]
                   ++ bytes_be 4 (arg w 3 2))
              = Z.lor ((arg w 3 1 / 256) mod 256) 3
                :: arg w 3 1 mod 256 :: bytes_be 4 (arg w 3 2)).
  { unfold uuid_node. rewrite skipn_app, Lh.
    rewrite skipn_all2 by lia. reflexivity. }
  rewrite N. cbn [nth].
  assert (B0 : Z.testbit (Z.lor ((arg w 3 1 / 256) mod 256) 3) 0 = true).
  { rewrite Z.lor_spec. apply orb_true_r. }
  assert (B1 : Z.testbit (Z.lor ((arg w 3 1 / 256) mod 256) 3) 1 = true).
  { rewrite Z.lor_spec. apply orb_true_r. }
  split; [exact B0|]. split; [exact B1|]. split.
  - cbn [List.length]. now rewrite bytes_be_length.
  - intros mac Hmac E. subst mac. cbn [nth] in Hmac.
    rewrite B0, B1 in Hmac. destruct Hmac; discriminate.
Qed.

Lemma generate_v1mc_node_bits_witness :
  fst (uuid_generate_v1mc (sample_world 0 0))
  = Ok [0x1d; 0x19; 0xda; 0xd6; 0xba; 0x7b; 0x11; 0xd1;
        0x9a; 0xfe; 0x9b; 0xbb; 0x12; 0x34; 0x56; 0x78]
  /\ Z.testbit
       (nth 0 (uuid_node [0x1d; 0x19; 0xda; 0xd6; 0xba; 0x7b; 0x11; 0xd1;
                          0x9a; 0xfe; 0x9b; 0xbb; 0x12; 0x34; 0x56; 0x78]) 0)
       0 = true.
Proof.
  split; [reflexivity|].
  apply (generate_v1mc_node_bits (sample_world 0 0)). reflexivity.
Defined.

(** C8: [uuid_generate_v1mc] is [uuid_generate_v1] but for the last 18
    characters of the 36-character string.  On the same provider output,
    the first 18 characters of [strbuf] are those of the v1 string and
    the last 18 are [buf]: a hyphen, the four digits of the low fourteen
    bits of a random word under the variant bits, a hyphen, and the
    twelve digits of the low sixteen bits of a second random word with
    bits 8 and 9 set and of a third random word; the three words are the
    three outputs of [arc4random] drawn by the call, whatever the order
    of evaluation.  The first eight bytes of the value are those of the
    v1 value and the last eight (the two bytes of the clock sequence and
    the node) are the bytes that [buf] spells. *)
Theorem generate_v1mc_overwrites_tail (w : world) (s : cstring) :
  fst (internal_uuid_strbuf 1 None None 0 w) = Ok s ->
  List.length s = 36%nat ->
  let a := call_args w 3 in
  let clock := Z.lor (Z.land (nth 0 a 0) 0x3FFF) 0x8000 in
  let node_hi := Z.lor (Z.land (nth 1 a 0) 0xffff) 0x0300 in
  let node_lo := nth 2 a 0 in
  let buf : cstring := hyphen ++ hex_fixed 4 clock ++ hyphen
                       ++ hex_fixed 4 node_hi ++ hex_fixed 8 node_lo in
  Permutation a [draw w 0; draw w 1; draw w 2]
  /\ v1mc_buf w = (Ok buf, after_draws w 3)
  /\ List.length buf = 18%nat
  /\ fst (internal_uuid_strbuf 1 None (Some buf) 18 (after_draws w 3))
     = Ok (firstn 18 s ++ buf)
  /\ fst (uuid_generate_v1 w) = fst (uuid_in s w)
  /\ fst (uuid_generate_v1mc w) = fst (uuid_in (firstn 18 s ++ buf) w)
  /\ forall u1 : pg_uuid_t,
       fst (uuid_generate_v1 w) = Ok u1 ->
       exists u2, fst (uuid_generate_v1mc w) = Ok u2
                  /\ firstn 8 u2 = firstn 8 u1
                  /\ skipn 8 u2 = bytes_be 2 clock ++ bytes_be 2 node_hi
                                  ++ bytes_be 4 node_lo.
Proof.
  intros Hs Ls a clock node_hi node_lo buf.
  assert (Eb : sprintf_v1mc (arg w 3 0) (arg w 3 1) (arg w 3 2) = buf).
  { apply sprintf_v1mc_hex, arg_range. }
  assert (Lb : List.length buf = 18%nat).
  { rewrite <- Eb. apply sprintf_v1mc_length, arg_range. }
  assert (S1 : internal_uuid_strbuf 1 None None 0 w = (Ok s, after_create w)).
  { rewrite internal_uuid_strbuf_1 in *. cbn [fst] in Hs. now rewrite Hs. }
  assert (S2 : internal_uuid_strbuf 1 None (Some buf) 18 (after_draws w 3)
               = (Ok (firstn 18 s ++ buf), after_create (after_draws w 3))).
  { rewrite internal_uuid_strbuf_1 in *. cbn [fst] in Hs.
    change (create_status (after_draws w 3)) with (create_status w).
    change (string_status (after_draws w 3)) with (string_status w).
    change (host_str (after_draws w 3)) with (host_str w).
    destruct (create_status w =? uuid_s_ok); [|discriminate].
    destruct (string_status w =? uuid_s_ok); [|discriminate].
    destruct (host_str w) as [str|]; [|discriminate].
    apply Ok_inj in Hs. rewrite Hs.
    change (18 <=? 36) with true. cbv iota.
    change (Z.to_nat (36 - 18)) with 18%nat.
    now rewrite strcpy_at_18 by assumption. }
  assert (V1 : fst (uuid_generate_v1 w) = fst (uuid_in s w)).
  { unfold uuid_generate_v1, internal_uuid_create, bind. rewrite S1.
    unfold uuid_in. destruct (string_to_uuid s); reflexivity. }
  assert (V2 : fst (uuid_generate_v1mc w)
               = fst (uuid_in (firstn 18 s ++ buf) w)).
  { unfold uuid_generate_v1mc, bind at 1. rewrite v1mc_buf_run, Eb.
    unfold internal_uuid_create, bind. rewrite S2.
    unfold uuid_in. destruct (string_to_uuid (firstn 18 s ++ buf)); reflexivity. }
  split; [apply (call_args_perm w 3)|].
  split; [rewrite v1mc_buf_run, Eb; reflexivity|].
  split; [exact Lb|]. split; [now rewrite S2|].
  split; [exact V1|]. split; [exact V2|].
  intros u1 Hu1. rewrite V1 in Hu1. rewrite V2.
  unfold uuid_in in *.
  destruct (string_to_uuid s) as [u|] eqn:E; [|discriminate].
  cbn [fst ret] in Hu1. apply Ok_inj in Hu1. subst u.
  apply string_to_uuid_halves in E. destruct E as [Eh _].
  rewrite string_to_uuid_splice by (rewrite length_firstn; lia).
  rewrite Eh, <- Eb.
  rewrite uuid_tail_sprintf_v1mc by apply arg_range.
  eexists. split; [reflexivity|].
  assert (L8 : List.length (firstn 8 u1) = 8%nat).
  { pose proof (uuid_head_length _ _ Eh). tauto. }
  split.
  - rewrite firstn_app, L8, Nat.sub_diag, firstn_O, app_nil_r.
    rewrite firstn_firstn. reflexivity.
  - rewrite skipn_app, L8, Nat.sub_diag, skipn_O.
    rewrite skipn_all2 by lia. apply v1mc_tail_bytes.
Qed.

Lemma generate_v1mc_overwrites_tail_witness :
  fst (internal_uuid_strbuf 1 None None 0 (sample_world 0 0))
  = Ok (lit "1d19dad6-ba7b-11d1-80b4-00c04fd430c8")
  /\ fst (internal_uuid_strbuf 1 None
            (Some (lit "-9afe-9bbb12345678")) 18
            (after_draws (sample_world 0 0) 3))
     = Ok (lit "1d19dad6-ba7b-11d1-9afe-9bbb12345678").
Proof.
  split; [reflexivity|].
  exact (proj1 (proj2 (proj2 (proj2
    (generate_v1mc_overwrites_tail (sample_world 0 0)
       (lit "1d19dad6-ba7b-11d1-80b4-00c04fd430c8")
       eq_refl eq_refl))))).
Defined.

(** C9: when the host provider reports a status [st] other than success,
    on creation or on string conversion, [uuid_generate_v1] and
    [uuid_generate_v1mc] leave through [ereport] with an error that
    carries [st], and return no value. *)
Theorem provider_failure_reported (w : world) (st : Z) :
  (create_status w = st /\ st <> uuid_s_ok)
  \/ (create_status w = uuid_s_ok
      /\ string_status w = st /\ st <> uuid_s_ok) ->
  fst (uuid_generate_v1 w) = Error (library_failure st)
  /\ fst (uuid_generate_v1mc w) = Error (library_failure st)
  /\ sqlerrcode (library_failure st) = ERRCODE_EXTERNAL_ROUTINE_EXCEPTION
  /\ errmsg_arg (library_failure st) = ArgInt (int_of_uint32 st)
  /\ w32 (int_of_uint32 st) = st
  /\ forall u : pg_uuid_t,
       fst (uuid_generate_v1 w) <> Ok u
       /\ fst (uuid_generate_v1mc w) <> Ok u.
Proof.
  intros H.
  assert (R : 0 <= st < 4294967296).
  { destruct H as [[<- _]|(_ & <- & _)]; apply w32_range. }
  assert (V1 : fst (uuid_generate_v1 w) = Error (library_failure st)).
  { unfold uuid_generate_v1, internal_uuid_create, bind.
    rewrite internal_uuid_strbuf_1.
    destruct H as [[E N]|(E1 & E2 & N)].
    - rewrite E. destruct (Z.eqb_spec st uuid_s_ok); [contradiction|].
      reflexivity.
    - rewrite E1, E2. change (uuid_s_ok =? uuid_s_ok) with true. cbv iota.
      destruct (Z.eqb_spec st uuid_s_ok); [contradiction|]. reflexivity. }
  assert (V2 : fst (uuid_generate_v1mc w) = Error (library_failure st)).
  { unfold uuid_generate_v1mc, bind at 1. rewrite v1mc_buf_run.
    unfold internal_uuid_create, bind.
    rewrite internal_uuid_strbuf_1.
    change (create_status (after_draws w 3)) with (create_status w).
    change (string_status (after_draws w 3)) with (string_status w).
    destruct H as [[E N]|(E1 & E2 & N)].
    - rewrite E. destruct (Z.eqb_spec st uuid_s_ok); [contradiction|].
      reflexivity.
    - rewrite E1, E2. change (uuid_s_ok =? uuid_s_ok) with true. cbv iota.
      destruct (Z.eqb_spec st uuid_s_ok); [contradiction|]. reflexivity. }
  split; [exact V1|]. split; [exact V2|].
  split; [reflexivity|]. split; [reflexivity|]. split.
  - unfold int_of_uint32, w32.
    destruct (Z.ltb_spec st 2147483648);
      Z.to_euclidean_division_equations; lia.
  - intros u. rewrite V1, V2. split; discriminate.
Qed.

Lemma provider_failure_reported_witness :
  create_status (sample_world 0 3) = uuid_s_ok
  /\ string_status (sample_world 0 3) = 3
  /\ fst (uuid_generate_v1 (sample_world 0 3)) = Error (library_failure 3).
Proof.
  split; [reflexivity|]. split; [reflexivity|].
  apply (provider_failure_reported (sample_world 0 3) 3).
  right. split; [reflexivity|]. split; [reflexivity|]. discriminate.
Defined.

(** C10: [uuid_generate_v1mc] writes both bytes of the clock sequence:
    its fourteen bits are the low fourteen bits of one of the three
    outputs of [arc4random] drawn by the call (the first argument of the
    [sprintf], whichever the build evaluates first), under the variant
    bits 10; they are the same whatever the host provider returned. *)
Theorem generate_v1mc_clock_seq (w : world) (u : pg_uuid_t) :
  fst (uuid_generate_v1mc w) = Ok u ->
  let r := nth 0 (call_args w 3) 0 in
  In r [draw w 0; draw w 1; draw w 2]
  /\ nth 8 u 0 = 0x80 + (r / 256) mod 64
  /\ nth 9 u 0 = r mod 256
  /\ uuid_clock_seq u = Z.land r 0x3FFF
  /\ uuid_variant u = 2
  /\ forall (w' : world) (u' : pg_uuid_t),
       arc4_stream w' = arc4_stream w ->
       arc4_count w' = arc4_count w ->
       arg_order w' = arg_order w ->
       fst (uuid_generate_v1mc w') = Ok u' ->
       nth 8 u' 0 = nth 8 u 0 /\ nth 9 u' 0 = nth 9 u 0.
Proof.
  assert (K : forall w0 u0,
             fst (uuid_generate_v1mc w0) = Ok u0 ->
             nth 8 u0 0 = 0x80 + (arg w0 3 0 / 256) mod 64
             /\ nth 9 u0 0 = arg w0 3 0 mod 256).
  { intros w0 u0 Hu. apply uuid_generate_v1mc_ok in Hu.
    destruct Hu as (_ & _ & s & h & _ & Hh & ->).
    apply uuid_head_length in Hh. destruct Hh as [Lh _].
    rewrite (nth_head_8 _ _ 0), (nth_head_8 _ _ 1) by exact Lh.
    cbn [bytes_be app nth].
    split; Z.to_euclidean_division_equations; lia. }
  intros Hu r. change r with (arg w 3 0).
  destruct (K w u Hu) as [K8 K9].
  split; [apply (arg_in_draws w 3 0); lia|].
  split; [exact K8|]. split; [exact K9|]. split; [|split].
  - unfold uuid_clock_seq. rewrite K8, K9.
    change 0x3FFF with (Z.ones 14). rewrite Z.land_ones by lia.
    change (2 ^ 14) with 16384.
    Z.to_euclidean_division_equations. lia.
  - unfold uuid_variant. rewrite K8, Z.shiftr_div_pow2 by lia.
    change (2 ^ 6) with 64. Z.to_euclidean_division_equations. lia.
  - intros w' u' Hs Hc Ho Hu'. destruct (K w' u' Hu') as [K8' K9'].
    assert (E : arg w' 3 0 = arg w 3 0).
    { unfold arg, call_args, draw. now rewrite Hs, Hc, Ho. }
    rewrite K8, K9, K8', K9', E. split; reflexivity.
Qed.

Lemma generate_v1mc_clock_seq_witness :
  fst (uuid_generate_v1mc (sample_world 0 0))
  = Ok [0x1d; 0x19; 0xda; 0xd6; 0xba; 0x7b; 0x11; 0xd1;
        0x9a; 0xfe; 0x9b; 0xbb; 0x12; 0x34; 0x56; 0x78]
  /\ uuid_clock_seq [0x1d; 0x19; 0xda; 0xd6; 0xba; 0x7b; 0x11; 0xd1;
                     0x9a; 0xfe; 0x9b; 0xbb; 0x12; 0x34; 0x56; 0x78]
     = Z.land (draw (sample_world 0 0) 2) 0x3FFF.
Proof.
  split; [reflexivity|].
  apply (generate_v1mc_clock_seq (sample_world 0 0)). reflexivity.
Defined.

(** ** Further properties of the source *)

Lemma is_lower_hex_digit (x : Z) : is_lower_hex (hex_digit (x mod 16)) = true.
Proof.
  pose proof (Z.mod_pos_bound x 16 ltac:(lia)) as H.
  unfold is_lower_hex, hex_digit.
  destruct (Z.ltb_spec (x mod 16) 10).
  - apply orb_true_iff. left. apply andb_true_iff.
    split; apply Z.leb_le; lia.
  - apply orb_true_iff. right. apply andb_true_iff.
    split; apply Z.leb_le; lia.
Qed.

Lemma canonical_from_app (a b : cstring) :
  forall i, canonical_from i (a ++ b)
            = canonical_from i a && canonical_from (i + List.length a) b.
Proof.
  induction a as [|c a IH]; intros i.
  - cbn [app canonical_from List.length]. now rewrite Nat.add_0_r.
  - cbn [app canonical_from List.length]. rewrite IH, andb_assoc.
    do 2 f_equal. lia.
Qed.

Lemma nth_byte (l : list Z) (i : nat) :
  Forall is_byte l -> is_byte (nth i l 0).
Proof.
  intros H. revert i. induction H as [|b l Hb Hl IH]; intros [|i]; cbn [nth];
    try (unfold is_byte; lia); auto.
Qed.

(** The text of cases 3 and 5 is in canonical form. *)
Lemma sprintf_hash_canonical (buf : list Z) (v : Z) :
  Forall is_byte buf -> 0 <= v < 16 ->
  canonical (sprintf_hash buf (16 * v)) = true.
Proof.
  intros B Hv. unfold sprintf_hash.
  pose proof (version_byte (nth 6 buf 0) v Hv).
  pose proof (variant_byte (nth 8 buf 0)).
  rewrite !printf_0x_2 by (assumption || apply nth_byte, B).
  unfold canonical, hyphen. cbn [hex_fixed app List.length Nat.eqb].
  cbn [canonical_from canonical_char Nat.eqb orb andb].
  rewrite !is_lower_hex_digit. reflexivity.
Qed.

(** The text of case 4 is in canonical form. *)
Lemma sprintf_v4_canonical (r0 r1 r2 r3 r4 r5 : Z) :
  0 <= r0 < 4294967296 -> 0 <= r5 < 4294967296 ->
  canonical (sprintf_v4 r0 r1 r2 r3 r4 r5) = true.
Proof.
  intros H0 H5. unfold sprintf_v4.
  rewrite mask_16, mask_12_version, mask_14_variant, mask_16.
  pose proof (Z.mod_pos_bound r1 65536). pose proof (Z.mod_pos_bound r2 4096).
  pose proof (Z.mod_pos_bound r3 16384). pose proof (Z.mod_pos_bound r4 65536).
  rewrite !printf_0x_8, !printf_0x_4 by lia.
  unfold canonical, hyphen. cbn [hex_fixed app List.length Nat.eqb].
  cbn [canonical_from canonical_char Nat.eqb orb andb].
  rewrite !is_lower_hex_digit. reflexivity.
Qed.

Lemma canonical_length (s : cstring) :
  canonical s = true -> List.length s = 36%nat.
Proof.
  unfold canonical. intros H. apply andb_true_iff in H.
  destruct H as [H _]. now apply Nat.eqb_eq.
Qed.

(** The [default] label: every selector other than 0, 1, 3 and 5 runs
    the random case. *)
Lemma internal_uuid_strbuf_default
    (v : Z) (ns : option (list Z)) (ptr : option cstring) (len : Z)
    (w : world) :
  v <> 0 -> v <> 1 -> v <> 3 -> v <> 5 ->
  internal_uuid_strbuf v ns ptr len w
  = (Ok (sprintf_v4 (arg w 6 0) (arg w 6 1) (arg w 6 2)
                    (arg w 6 3) (arg w 6 4) (arg w 6 5)),
     after_draws w 6).
Proof.
  intros H0 H1 H3 H5. unfold internal_uuid_strbuf.
  rewrite (proj2 (Z.eqb_neq v 0) H0), (proj2 (Z.eqb_neq v 1) H1),
    (proj2 (Z.eqb_neq v 3) H3), (proj2 (Z.eqb_neq v 5) H5).
  reflexivity.
Qed.

(** Case 1 does not look at [ns]. *)
Lemma internal_uuid_strbuf_1_ns
    (ns : option (list Z)) (ptr : option cstring) (len : Z) (w : world) :
  internal_uuid_strbuf 1 ns ptr len w = internal_uuid_strbuf 1 None ptr len w.
Proof. reflexivity. Qed.

(** Whatever the selector, the namespace and the name, the text that the
    hash cases and the random case print into [strbuf] is in canonical
    form: 36 characters, hyphens at 8, 13, 18 and 23 and lowercase
    hexadecimal digits elsewhere. *)
Theorem strbuf_canonical
    (v : Z) (ns : option (list Z)) (ptr : option cstring) (len : Z)
    (w : world) (s : cstring) :
  v <> 0 -> v <> 1 ->
  fst (internal_uuid_strbuf v ns ptr len w) = Ok s ->
  canonical s = true /\ List.length s = 36%nat.
Proof.
  intros H0 H1 Hs.
  assert (C : canonical s = true); [|split; [exact C|apply canonical_length, C]].
  destruct (Z.eq_dec v 3) as [->|H3]; [|destruct (Z.eq_dec v 5) as [->|H5]].
  - unfold internal_uuid_strbuf in Hs.
    change (3 =? 0) with false in Hs. change (3 =? 1) with false in Hs.
    change (3 =? 3) with true in Hs. cbv iota in Hs.
    destruct ns as [n|]; [|discriminate]. destruct ptr as [p|]; [|discriminate].
    apply Ok_inj in Hs. subst s.
    apply (sprintf_hash_canonical _ 3); [apply MD5_digest_byte|lia].
  - unfold internal_uuid_strbuf in Hs.
    change (5 =? 0) with false in Hs. change (5 =? 1) with false in Hs.
    change (5 =? 3) with false in Hs. change (5 =? 5) with true in Hs.
    cbv iota in Hs.
    destruct ns as [n|]; [|discriminate]. destruct ptr as [p|]; [|discriminate].
    apply Ok_inj in Hs. subst s.
    apply (sprintf_hash_canonical _ 5); [apply SHA1_digest_byte|lia].
  - rewrite internal_uuid_strbuf_default in Hs by assumption.
    apply Ok_inj in Hs. subst s.
    apply sprintf_v4_canonical; apply arg_range.
Qed.

Lemma strbuf_canonical_witness :
  fst (internal_uuid_strbuf 7 None None 0 (sample_world 0 0))
  = Ok (lit "1280a1c7-5f84-4d41-9afe-98bb12345678")
  /\ canonical (lit "1280a1c7-5f84-4d41-9afe-98bb12345678") = true.
Proof.
  split; [reflexivity|].
  apply (strbuf_canonical 7 None None 0 (sample_world 0 0)).
  - discriminate.
  - discriminate.
  - reflexivity.
Defined.

(** The hook of case 1, as its comment says: when the provider succeeds
    with a string of 36 characters or more and [ptr] holds [len]
    characters, [len] between 0 and 36, [strbuf] is the 36 - [len] first
    characters of the provider's string followed by [ptr]: 36 characters
    of which the last [len] are replaced and the others kept. *)
Theorem strbuf_tail_replaced
    (ns : option (list Z)) (p s : cstring) (len : Z) (w : world) :
  create_status w = uuid_s_ok ->
  string_status w = uuid_s_ok ->
  host_str w = Some s ->
  (36 <= List.length s)%nat ->
  0 <= len <= 36 ->
  List.length p = Z.to_nat len ->
  let strbuf := firstn (36 - Z.to_nat len) s ++ p in
  internal_uuid_strbuf 1 ns (Some p) len w = (Ok strbuf, after_create w)
  /\ List.length strbuf = 36%nat
  /\ firstn (36 - Z.to_nat len) strbuf = firstn (36 - Z.to_nat len) s
  /\ skipn (36 - Z.to_nat len) strbuf = p.
Proof.
  intros E1 E2 Hs Ls Hlen Lp strbuf.
  assert (Lf : List.length (firstn (36 - Z.to_nat len) s)
               = (36 - Z.to_nat len)%nat).
  { rewrite length_firstn. lia. }
  split; [|split; [|split]].
  - rewrite internal_uuid_strbuf_1_ns, internal_uuid_strbuf_1.
    rewrite E1, E2, Hs. change (uuid_s_ok =? uuid_s_ok) with true. cbv iota.
    destruct (Z.leb_spec len 36) as [_|]; [|lia].
    f_equal. unfold strbuf, strcpy_at, strlcpy.
    change (37 - 1)%nat with 36%nat.
    replace (Z.to_nat (36 - len)) with (36 - Z.to_nat len)%nat by lia.
    destruct (Nat.leb_spec (36 - Z.to_nat len + List.length p + 1) 40)
      as [_|Hover]; [|lia].
    destruct (Nat.leb_spec (36 - Z.to_nat len) (List.length (firstn 36 s)))
      as [_|Hgt].
    + rewrite firstn_firstn. do 3 f_equal. lia.
    + rewrite length_firstn in Hgt. lia.
  - unfold strbuf. rewrite length_app, Lf, Lp. lia.
  - unfold strbuf. rewrite firstn_app, Lf, Nat.sub_diag, firstn_O, app_nil_r.
    rewrite firstn_firstn. f_equal. lia.
  - unfold strbuf. rewrite skipn_app, Lf, Nat.sub_diag, skipn_O.
    rewrite skipn_all2 by lia. reflexivity.
Qed.

Lemma strbuf_tail_replaced_witness :
  fst (internal_uuid_strbuf 1 None (Some (lit "c04fd430c8ff")) 12
                            (sample_world 0 0))
  = Ok (lit "1d19dad6-ba7b-11d1-80b4-c04fd430c8ff").
Proof.
  refine (f_equal fst (proj1
    (strbuf_tail_replaced None (lit "c04fd430c8ff")
       (lit "1d19dad6-ba7b-11d1-80b4-00c04fd430c8") 12 (sample_world 0 0)
       eq_refl eq_refl eq_refl _ _ eq_refl))).
  - apply Nat.le_refl.
  - lia.
Defined.

(** The guard of the hook: a [ptr] announced with more than 36
    characters is not copied; the call behaves as without [ptr]. *)
Theorem strbuf_long_ptr_ignored
    (ns : option (list Z)) (p : cstring) (len : Z) (w : world) :
  36 < len ->
  internal_uuid_strbuf 1 ns (Some p) len w
  = internal_uuid_strbuf 1 ns None len w
  /\ internal_uuid_create 1 ns (Some p) len w
     = internal_uuid_create 1 ns None len w.
Proof.
  intros H.
  assert (E : internal_uuid_strbuf 1 ns (Some p) len w
              = internal_uuid_strbuf 1 ns None len w).
  { rewrite !(internal_uuid_strbuf_1_ns ns), !internal_uuid_strbuf_1.
    destruct (Z.leb_spec len 36); [lia|]. reflexivity. }
  split; [exact E|].
  unfold internal_uuid_create, bind. now rewrite E.
Qed.

Lemma strbuf_long_ptr_ignored_witness :
  fst (internal_uuid_create 1 None (Some (lit "zz")) 37 (sample_world 0 0))
  = fst (uuid_generate_v1 (sample_world 0 0)).
Proof.
  refine (f_equal fst (proj2
    (strbuf_long_ptr_ignored None (lit "zz") 37 (sample_world 0 0) _))).
  lia.
Defined.

Lemma sprintf_hash_length (buf : list Z) (v : Z) :
  Forall is_byte buf -> 0 <= v < 16 ->
  List.length (sprintf_hash buf (16 * v)) = 36%nat.
Proof. intros B Hv. apply canonical_length, sprintf_hash_canonical; assumption. Qed.

(** [strbuf] is never overrun: when a [ptr] given to case 1 holds the
    [len] characters it announces, [len] not negative, no case writes
    outside the 40 bytes of the array, and the string left in it has at
    most 36 characters. *)
Theorem strbuf_fits
    (v : Z) (ns : option (list Z)) (ptr : option cstring) (len : Z)
    (w : world) :
  (forall p, v = 1 -> ptr = Some p ->
             0 <= len /\ List.length p = Z.to_nat len) ->
  fst (internal_uuid_strbuf v ns ptr len w) <> Undefined Overrun
  /\ forall s : cstring,
       fst (internal_uuid_strbuf v ns ptr len w) = Ok s ->
       (List.length s <= 36)%nat.
Proof.
  intros Hp.
  destruct (Z.eq_dec v 0) as [->|H0]; [|destruct (Z.eq_dec v 1) as [->|H1]].
  - unfold internal_uuid_strbuf. change (0 =? 0) with true. cbv iota.
    destruct ptr as [p|]; cbn [fst ret undefined].
    + split; [discriminate|]. intros s Hs. apply Ok_inj in Hs. subst s.
      unfold strlcpy. rewrite length_firstn. lia.
    + split; discriminate.
  - rewrite internal_uuid_strbuf_1_ns, internal_uuid_strbuf_1. cbn [fst].
    destruct (create_status w =? uuid_s_ok); [|split; discriminate].
    destruct (string_status w =? uuid_s_ok); [|split; discriminate].
    destruct (host_str w) as [str|]; [|split; discriminate].
    assert (L : (List.length (strlcpy str 37) <= 36)%nat).
    { unfold strlcpy. rewrite length_firstn. lia. }
    assert (K : forall s0, Ok (strlcpy str 37) = Ok s0 ->
                           (List.length s0 <= 36)%nat).
    { intros s0 Hs. apply Ok_inj in Hs. now subst s0. }
    destruct ptr as [p|]; [|split; [discriminate|exact K]].
    destruct (Z.leb_spec len 36) as [Hle|]; [|split; [discriminate|exact K]].
    destruct (Hp p eq_refl eq_refl) as [Hn Lp].
    unfold strcpy_at.
    destruct (Nat.leb_spec (Z.to_nat (36 - len) + List.length p + 1) 40)
      as [_|Hover]; [|lia].
    split; [discriminate|]. intros s Hs. apply Ok_inj in Hs. subst s.
    destruct (Nat.leb_spec (Z.to_nat (36 - len))
                           (List.length (strlcpy str 37))) as [Ho|]; [|exact L].
    rewrite length_app, length_firstn, Lp. lia.
  - destruct (Z.eq_dec v 3) as [->|H3]; [|destruct (Z.eq_dec v 5) as [->|H5]].
    + unfold internal_uuid_strbuf.
      change (3 =? 0) with false. change (3 =? 1) with false.
      change (3 =? 3) with true. cbv iota.
      destruct ns as [n|]; [|split; discriminate].
      destruct ptr as [p|]; [|split; discriminate].
      cbn [fst ret]. split; [discriminate|].
      intros s Hs. apply Ok_inj in Hs. subst s.
      rewrite (sprintf_hash_length _ 3); [lia|apply MD5_digest_byte|lia].
    + unfold internal_uuid_strbuf.
      change (5 =? 0) with false. change (5 =? 1) with false.
      change (5 =? 3) with false. change (5 =? 5) with true. cbv iota.
      destruct ns as [n|]; [|split; discriminate].
      destruct ptr as [p|]; [|split; discriminate].
      cbn [fst ret]. split; [discriminate|].
      intros s Hs. apply Ok_inj in Hs. subst s.
      rewrite (sprintf_hash_length _ 5); [lia|apply SHA1_digest_byte|lia].
    + rewrite internal_uuid_strbuf_default by assumption. cbn [fst].
      split; [discriminate|].
      intros s Hs. apply Ok_inj in Hs. subst s.
      rewrite (canonical_length _
                 (sprintf_v4_canonical _ _ _ _ _ _
                    (arg_range w 6 0) (arg_range w 6 5))).
      lia.
Qed.

Lemma strbuf_fits_witness :
  fst (internal_uuid_strbuf 1 None (Some (lit "-9afe-9bbb12345678")) 18
                            (sample_world 0 0))
  = Ok (lit "1d19dad6-ba7b-11d1-9afe-9bbb12345678")
  /\ fst (internal_uuid_strbuf 1 None (Some (lit "-9afe-9bbb12345678")) 18
                               (sample_world 0 0))
     <> Undefined Overrun.
Proof.
  split; [reflexivity|].
  apply (strbuf_fits 1 None (Some (lit "-9afe-9bbb12345678")) 18
                     (sample_world 0 0)).
  intros p _ E. injection E as <-. split; [lia|reflexivity].
Defined.

(** The hypothesis is needed: a [ptr] longer than announced, or a
    negative [len], takes the copy outside the array. *)
Example strbuf_overrun_long_ptr :
  fst (internal_uuid_strbuf 1 None (Some (lit "abcd")) 0 (sample_world 0 0))
  = Undefined Overrun.
Proof. reflexivity. Qed.

Example strbuf_overrun_negative_len :
  fst (internal_uuid_strbuf 1 None (Some []) (-4) (sample_world 0 0))
  = Undefined Overrun.
Proof. reflexivity. Qed.

Lemma hex_val_lower (c : Z) :
  is_lower_hex c = true ->
  hex_val c = Some (if c <=? 57 then c - 48 else c - 87).
Proof.
  unfold is_lower_hex, hex_val. intros H.
  apply orb_true_iff in H. destruct H as [H|H];
    apply andb_true_iff in H; destruct H as [H1 H2];
    apply Z.leb_le in H1, H2.
  - rewrite (proj2 (Z.leb_le 48 c)), (proj2 (Z.leb_le c 57)) by lia.
    reflexivity.
  - rewrite (proj2 (Z.leb_gt c 57)) by lia. rewrite andb_false_r.
    rewrite (proj2 (Z.leb_le 97 c)), (proj2 (Z.leb_le c 102)) by lia.
    reflexivity.
Qed.

(** The parser reads every string in canonical form. *)
Lemma string_to_uuid_canonical (s : cstring) :
  canonical s = true -> exists u, string_to_uuid s = Some u.
Proof.
  intros C. pose proof (canonical_length s C) as L.
  assert (L' : (36 <= List.length s)%nat) by lia.
  do 36 (explode_step s L'). destruct s; [|discriminate].
  unfold canonical in C. cbn [List.length Nat.eqb andb] in C.
  cbn [canonical_from canonical_char Nat.eqb orb] in C.
  repeat match goal with
         | H : _ && _ = true |- _ =>
             apply andb_true_iff in H; destruct H as [? H]
         end.
  repeat match goal with
         | H : (_ =? 45) = true |- _ => apply Z.eqb_eq in H; subst
         end.
  unfold string_to_uuid.
  repeat first
    [ rewrite parse_hex_bytes_S
    | rewrite parse_hex_bytes_0
    | rewrite expect_hyphen_cons
    | rewrite hex_val_lower by assumption
    | progress cbn [fst snd] ].
  change (45 =? 45) with true. cbv iota.
  repeat first
    [ rewrite parse_hex_bytes_S
    | rewrite parse_hex_bytes_0
    | rewrite expect_hyphen_cons
    | rewrite hex_val_lower by assumption
    | progress cbn [fst snd]
    | progress (change (45 =? 45) with true; cbv iota) ].
  eexists. reflexivity.
Qed.

Lemma sprintf_v1mc_canonical_from (r0 r1 r2 : Z) :
  0 <= r2 < 4294967296 ->
  canonical_from 18 (sprintf_v1mc r0 r1 r2) = true.
Proof.
  intros H. unfold sprintf_v1mc.
  rewrite mask_14_variant, mask_16_node.
  pose proof (Z.mod_pos_bound r0 16384).
  pose proof (Z.mod_pos_bound r1 256).
  assert (N : is_byte (Z.lor ((r1 / 256) mod 256) 3)).
  { apply node_octet_byte. apply Z.mod_pos_bound. lia. }
  unfold is_byte in N.
  rewrite !printf_0x_4, printf_0x_8 by lia.
  unfold hyphen. cbn [hex_fixed app].
  cbn [canonical_from canonical_char Nat.eqb orb andb].
  rewrite !is_lower_hex_digit. reflexivity.
Qed.

(** [uuid_generate_v1mc] keeps the canonical form: when the provider
    succeeds with a string in canonical form, the run hands the parser a
    string that is in canonical form too and starts with the same 18
    characters. *)
Theorem v1mc_strbuf_canonical (w : world) (s : cstring) :
  create_status w = uuid_s_ok ->
  string_status w = uuid_s_ok ->
  host_str w = Some s ->
  canonical s = true ->
  exists s' : cstring,
    fst ((b <- v1mc_buf ;; internal_uuid_strbuf 1 None (Some b) 18) w)
    = Ok s'
    /\ canonical s' = true
    /\ firstn 18 s' = firstn 18 s.
Proof.
  intros E1 E2 Hs C.
  set (buf := sprintf_v1mc (arg w 3 0) (arg w 3 1) (arg w 3 2)).
  pose proof (canonical_length s C) as L.
  assert (Lb : List.length buf = 18%nat)
    by (apply sprintf_v1mc_length, arg_range).
  exists (firstn 18 s ++ buf). split; [|split].
  - unfold bind at 1. rewrite v1mc_buf_run. fold buf.
    rewrite internal_uuid_strbuf_1.
    change (create_status (after_draws w 3)) with (create_status w).
    change (string_status (after_draws w 3)) with (string_status w).
    change (host_str (after_draws w 3)) with (host_str w).
    rewrite E1, E2, Hs. change (uuid_s_ok =? uuid_s_ok) with true.
    change (18 <=? 36) with true. cbv iota.
    change (Z.to_nat (36 - 18)) with 18%nat.
    rewrite strlcpy_36 by exact L.
    rewrite strcpy_at_18 by assumption. reflexivity.
  - unfold canonical in *. apply andb_true_iff in C. destruct C as [_ C].
    rewrite <- (firstn_skipn 18 s), canonical_from_app in C.
    apply andb_true_iff in C. destruct C as [C _].
    apply andb_true_iff. split.
    + apply Nat.eqb_eq. rewrite length_app, length_firstn, Lb. lia.
    + rewrite canonical_from_app, C, length_firstn.
      replace (0 + Nat.min 18 (List.length s))%nat with 18%nat by lia.
      apply sprintf_v1mc_canonical_from, arg_range.
  - rewrite firstn_app, length_firstn.
    replace (18 - Nat.min 18 (List.length s))%nat with 0%nat by lia.
    rewrite firstn_O, app_nil_r. apply firstn_firstn.
Qed.

Lemma v1mc_strbuf_canonical_witness :
  canonical (lit "1d19dad6-ba7b-11d1-80b4-00c04fd430c8") = true
  /\ exists s' : cstring,
       fst ((b <- v1mc_buf ;; internal_uuid_strbuf 1 None (Some b) 18)
              (sample_world 0 0)) = Ok s'
       /\ canonical s' = true
       /\ firstn 18 s' = firstn 18 (lit "1d19dad6-ba7b-11d1-80b4-00c04fd430c8").
Proof.
  split; [reflexivity|].
  exact (v1mc_strbuf_canonical (sample_world 0 0)
           (lit "1d19dad6-ba7b-11d1-80b4-00c04fd430c8")
           eq_refl eq_refl eq_refl eq_refl).
Defined.

(** The only failures of [uuid_generate_v1] and [uuid_generate_v1mc] are
    the provider's: when the provider succeeds with a string in canonical
    form, both return a value, the one of v1 being what the string
    denotes and the one of v1mc having the same eight first bytes. *)
Theorem provider_success_suffices (w : world) (s : cstring) :
  create_status w = uuid_s_ok ->
  string_status w = uuid_s_ok ->
  host_str w = Some s ->
  canonical s = true ->
  exists u u',
    string_to_uuid s = Some u
    /\ fst (uuid_generate_v1 w) = Ok u
    /\ fst (uuid_generate_v1mc w) = Ok u'
    /\ firstn 8 u' = firstn 8 u.
Proof.
  intros E1 E2 Hs C.
  pose proof (canonical_length s C) as L.
  destruct (string_to_uuid_canonical s C) as [u Hu].
  pose proof (string_to_uuid_halves s u Hu) as [Hh _].
  pose proof (uuid_head_length _ _ Hh) as [L8 _].
  exists u.
  exists (firstn 8 u
          ++ bytes_be 2 (arg w 3 0 mod 16384 + 32768)
          ++ [Z.lor ((arg w 3 1 / 256) mod 256) 3; arg w 3 1 mod 256]
          ++ bytes_be 4 (arg w 3 2)).
  split; [exact Hu|]. split; [|split].
  - unfold uuid_generate_v1, internal_uuid_create, bind.
    rewrite internal_uuid_strbuf_1, E1, E2, Hs.
    change (uuid_s_ok =? uuid_s_ok) with true. cbv iota.
    rewrite strlcpy_36 by exact L. unfold uuid_in. now rewrite Hu.
  - unfold uuid_generate_v1mc, bind at 1. rewrite v1mc_buf_run.
    unfold internal_uuid_create, bind. rewrite internal_uuid_strbuf_1.
    change (create_status (after_draws w 3)) with (create_status w).
    change (string_status (after_draws w 3)) with (string_status w).
    change (host_str (after_draws w 3)) with (host_str w).
    rewrite E1, E2, Hs. change (uuid_s_ok =? uuid_s_ok) with true.
    change (18 <=? 36) with true. cbv iota.
    change (Z.to_nat (36 - 18)) with 18%nat.
    rewrite strlcpy_36 by exact L.
    rewrite strcpy_at_18 by (exact L || apply sprintf_v1mc_length, arg_range).
    unfold uuid_in.
    rewrite string_to_uuid_splice by (rewrite length_firstn; lia).
    rewrite Hh, uuid_tail_sprintf_v1mc by apply arg_range.
    reflexivity.
  - rewrite firstn_app, L8, Nat.sub_diag, firstn_O, app_nil_r.
    apply firstn_firstn.
Qed.

Lemma provider_success_suffices_witness :
  exists u u',
    string_to_uuid (lit "1d19dad6-ba7b-11d1-80b4-00c04fd430c8") = Some u
    /\ fst (uuid_generate_v1 (sample_world 0 0)) = Ok u
    /\ fst (uuid_generate_v1mc (sample_world 0 0)) = Ok u'
    /\ firstn 8 u' = firstn 8 u.
Proof.
  exact (provider_success_suffices (sample_world 0 0)
           (lit "1d19dad6-ba7b-11d1-80b4-00c04fd430c8")
           eq_refl eq_refl eq_refl eq_refl).
Defined.

Lemma be_value_bytes_be (k : nat) :
  forall n, be_value (bytes_be k n) = n mod 256 ^ Z.of_nat k.
Proof.
  induction k as [|k IH]; intros n.
  - cbn. now rewrite Z.mod_1_r.
  - cbn [bytes_be]. unfold be_value in *. rewrite fold_left_app, IH.
    cbn [fold_left]. rewrite Nat2Z.inj_succ, Z.pow_succ_r by lia.
    rewrite Z.rem_mul_r by lia. lia.
Qed.

Lemma bytes_be_inj (k : nat) (a b : Z) :
  0 <= a < 256 ^ Z.of_nat k -> 0 <= b < 256 ^ Z.of_nat k ->
  bytes_be k a = bytes_be k b -> a = b.
Proof.
  intros Ha Hb E. apply (f_equal be_value) in E.
  rewrite !be_value_bytes_be, !Z.mod_small in E by assumption. exact E.
Qed.

Lemma app_eq_length (A : Type) (a a' b b' : list A) :
  List.length a = List.length a' -> a ++ b = a' ++ b' -> a = a' /\ b = b'.
Proof.
  revert a'. induction a as [|x a IH]; intros [|x' a'] L E;
    try discriminate.
  - auto.
  - cbn [app] in E. injection E as -> E. cbn [List.length] in L.
    destruct (IH a' ltac:(lia) E) as [-> ->]. auto.
Qed.

(** The value of case 4 in terms of the bits of the random words that it
    uses. *)
Lemma v4_value_used_bits (r0 r1 r2 r3 r4 r5 : Z) :
  set_version_variant 4
    (bytes_be 4 r0 ++ bytes_be 2 r1 ++ bytes_be 2 r2
     ++ bytes_be 2 r3 ++ bytes_be 2 r4 ++ bytes_be 4 r5)
  = bytes_be 4 r0 ++ bytes_be 2 (r1 mod 65536)
    ++ bytes_be 2 (r2 mod 4096 + 16384)
    ++ bytes_be 2 (r3 mod 16384 + 32768)
    ++ bytes_be 2 (r4 mod 65536) ++ bytes_be 4 r5.
Proof.
  unfold set_version_variant. cbn [bytes_be app nth firstn skipn].
  rewrite version_nibble, variant_bits.
  list_eq; Z.to_euclidean_division_equations; lia.
Qed.

(** [uuid_generate_v4] loses no random bit that it uses: whatever the
    order of evaluation, by which each argument of the [sprintf] is one
    of the six words drawn, two calls return the same value exactly when
    the 122 bits that the format takes from its arguments are the same. *)
Theorem generate_v4_injective (w w' : world) :
  let a := call_args w 6 in
  let a' := call_args w' 6 in
  Permutation a (map (draw w) (seq 0 6))
  /\ Permutation a' (map (draw w') (seq 0 6))
  /\ (fst (uuid_generate_v4 w) = fst (uuid_generate_v4 w')
      <-> nth 0 a 0 = nth 0 a' 0
          /\ nth 1 a 0 mod 65536 = nth 1 a' 0 mod 65536
          /\ nth 2 a 0 mod 4096 = nth 2 a' 0 mod 4096
          /\ nth 3 a 0 mod 16384 = nth 3 a' 0 mod 16384
          /\ nth 4 a 0 mod 65536 = nth 4 a' 0 mod 65536
          /\ nth 5 a 0 = nth 5 a' 0).
Proof.
  intros a a'.
  split; [apply call_args_perm|]. split; [apply call_args_perm|].
  change (nth 0 a 0) with (arg w 6 0). change (nth 0 a' 0) with (arg w' 6 0).
  change (nth 1 a 0) with (arg w 6 1). change (nth 1 a' 0) with (arg w' 6 1).
  change (nth 2 a 0) with (arg w 6 2). change (nth 2 a' 0) with (arg w' 6 2).
  change (nth 3 a 0) with (arg w 6 3). change (nth 3 a' 0) with (arg w' 6 3).
  change (nth 4 a 0) with (arg w 6 4). change (nth 4 a' 0) with (arg w' 6 4).
  change (nth 5 a 0) with (arg w 6 5). change (nth 5 a' 0) with (arg w' 6 5).
  rewrite !uuid_generate_v4_run. cbn [fst]. rewrite !v4_value_used_bits.
  split.
  - intros E. apply Ok_inj in E.
    apply app_eq_length in E; [|now rewrite !bytes_be_length].
    destruct E as [E0 E].
    apply app_eq_length in E; [|now rewrite !bytes_be_length].
    destruct E as [E1 E].
    apply app_eq_length in E; [|now rewrite !bytes_be_length].
    destruct E as [E2 E].
    apply app_eq_length in E; [|now rewrite !bytes_be_length].
    destruct E as [E3 E].
    apply app_eq_length in E; [|now rewrite !bytes_be_length].
    destruct E as [E4 E5].
    pose proof (arg_range w 6 0). pose proof (arg_range w' 6 0).
    pose proof (arg_range w 6 5). pose proof (arg_range w' 6 5).
    pose proof (Z.mod_pos_bound (arg w 6 1) 65536 ltac:(lia)).
    pose proof (Z.mod_pos_bound (arg w' 6 1) 65536 ltac:(lia)).
    pose proof (Z.mod_pos_bound (arg w 6 2) 4096 ltac:(lia)).
    pose proof (Z.mod_pos_bound (arg w' 6 2) 4096 ltac:(lia)).
    pose proof (Z.mod_pos_bound (arg w 6 3) 16384 ltac:(lia)).
    pose proof (Z.mod_pos_bound (arg w' 6 3) 16384 ltac:(lia)).
    pose proof (Z.mod_pos_bound (arg w 6 4) 65536 ltac:(lia)).
    pose proof (Z.mod_pos_bound (arg w' 6 4) 65536 ltac:(lia)).
    change 4294967296 with (256 ^ Z.of_nat 4) in *.
    change 65536 with (256 ^ Z.of_nat 2) in *.
    apply bytes_be_inj in E0; [|assumption|assumption].
    apply bytes_be_inj in E5; [|assumption|assumption].
    apply bytes_be_inj in E1; [|assumption|assumption].
    apply bytes_be_inj in E4; [|assumption|assumption].
    change (256 ^ Z.of_nat 4) with 4294967296 in *.
    change (256 ^ Z.of_nat 2) with 65536 in *.
    apply bytes_be_inj in E2;
      [|change (256 ^ Z.of_nat 2) with 65536; lia ..].
    apply bytes_be_inj in E3;
      [|change (256 ^ Z.of_nat 2) with 65536; lia ..].
    repeat split; lia.
  - intros (E0 & E1 & E2 & E3 & E4 & E5).
    now rewrite E0, E1, E2, E3, E4, E5.
Qed.

Lemma generate_v4_injective_witness :
  fst (uuid_generate_v4 (world_of_draws right_to_left [1; 2; 3; 4; 5; 6]))
  = fst (uuid_generate_v4
           (world_of_draws right_to_left
              [1; 65538; 65539; 65540; 65541; 6])).
Proof.
  apply (proj2 (proj2 (proj2 (generate_v4_injective
                  (world_of_draws right_to_left [1; 2; 3; 4; 5; 6])
                  (world_of_draws right_to_left
                     [1; 65538; 65539; 65540; 65541; 6]))))).
  repeat split.
Defined.

Lemma insert_at_map (A B : Type) (g : A -> B) (k : nat) (x : A) (l : list A) :
  map g (insert_at k x l) = insert_at k (g x) (map g l).
Proof.
  unfold insert_at. rewrite map_app. cbn [map].
  now rewrite firstn_map, skipn_map.
Qed.

Lemma place_args_map (A B : Type) (g : A -> B) (order : list nat)
      (f : nat -> A) (n : nat) :
  forall j acc,
    place_args order (fun i => g (f i)) j n (map g acc)
    = map g (place_args order f j n acc).
Proof.
  induction n as [|n IH]; intros j acc; cbn [place_args].
  - reflexivity.
  - rewrite <- insert_at_map. apply IH.
Qed.

Lemma place_args_ext (A : Type) (order : list nat) (f f' : nat -> A) (n : nat) :
  forall j acc,
    (forall i, (j <= i < j + n)%nat -> f i = f' i) ->
    place_args order f j n acc = place_args order f' j n acc.
Proof.
  induction n as [|n IH]; intros j acc H; cbn [place_args].
  - reflexivity.
  - rewrite (H j) by lia. apply IH. intros i Hi. apply H. lia.
Qed.

Lemma map_index_of (d : Z) (l : list nat) :
  NoDup l ->
  forall t, List.length t = List.length l ->
            map (fun j => nth (index_of j l) t d) l = t.
Proof.
  induction 1 as [|x l Hx Hl IH]; intros [|y t] L; try discriminate.
  - reflexivity.
  - cbn [map index_of]. rewrite Nat.eqb_refl. cbn [nth]. f_equal.
    transitivity (map (fun j => nth (index_of j l) t d) l).
    + apply map_ext_in. intros j Hj.
      destruct (Nat.eqb_spec j x) as [->|_]; [contradiction|reflexivity].
    + apply IH. cbn [List.length] in L. lia.
Qed.

(** With the words of [draws_for], the arguments of the call are [t]. *)
Lemma call_args_draws_for (order : list nat) (t : list Z) :
  Forall (fun r => 0 <= r < 4294967296) t ->
  call_args (world_of_draws order (draws_for order t)) (List.length t) = t.
Proof.
  intros R. unfold call_args. cbn [arg_order world_of_draws].
  set (n := List.length t).
  set (idx := place_args order (fun j => j) 0 n []).
  set (g := fun j => nth (index_of j idx) t 0).
  assert (Rg : forall j, 0 <= g j < 4294967296).
  { intros j. unfold g. generalize (index_of j idx). clear -R.
    induction R as [|r l Hr Hl IH]; intros [|i]; cbn [nth]; try lia; auto. }
  rewrite (place_args_ext _ _ _ g).
  - change (place_args order g 0 n [])
      with (place_args order (fun i => g ((fun j => j) i)) 0 n (map g [])).
    rewrite place_args_map. fold idx. unfold g.
    assert (P : Permutation idx (seq 0 n)).
    { unfold idx.
      rewrite (place_args_perm _ order (fun j => j) n 0 []).
      cbn [app]. now rewrite map_id. }
    apply map_index_of.
    + apply (Permutation_NoDup (l := seq 0 n)); [|apply seq_NoDup].
      now symmetry.
    + rewrite (Permutation_length P). now rewrite length_seq.
  - intros i Hi. unfold draw, world_of_draws. cbn [arc4_stream arc4_count].
    rewrite Nat.add_0_r. unfold draws_for. fold n. fold idx. fold g.
    rewrite (nth_indep _ 0 (g 0%nat))
      by (rewrite length_map, length_seq; lia).
    rewrite map_nth, seq_nth by lia. cbn [Nat.add].
    unfold w32. apply Z.mod_small, Rg.
Qed.

(** [uuid_generate_v4] reaches every value of its kind: whatever the
    order of evaluation, any sixteen bytes of version 4 and variant 10
    are returned when [arc4random] gives the six words that they spell,
    in the order in which the build draws them. *)
Theorem generate_v4_surjective (order : list nat) (x : pg_uuid_t) :
  List.length x = 16%nat ->
  Forall is_byte x ->
  uuid_version x = 4 ->
  uuid_variant x = 2 ->
  let words := [be_value (firstn 4 x);
                be_value (firstn 2 (skipn 4 x));
                be_value (firstn 2 (skipn 6 x));
                be_value (firstn 2 (skipn 8 x));
                be_value (firstn 2 (skipn 10 x));
                be_value (skipn 12 x)] in
  call_args (world_of_draws order (draws_for order words)) 6 = words
  /\ fst (uuid_generate_v4 (world_of_draws order (draws_for order words)))
     = Ok x.
Proof.
  intros L B Hv Hr words.
  assert (L' : (16 <= List.length x)%nat) by lia.
  explode x L'. destruct x; [|discriminate]. split_Forall.
  unfold uuid_version in Hv. unfold uuid_variant in Hr.
  cbn [nth] in Hv, Hr. rewrite Z.shiftr_div_pow2 in Hv, Hr by lia.
  change (2 ^ 4) with 16 in Hv. change (2 ^ 6) with 64 in Hr.
  unfold is_byte in *.
  assert (C : call_args (world_of_draws order (draws_for order words)) 6
              = words).
  { apply (call_args_draws_for order words).
    unfold words. cbn [firstn skipn]. unfold be_value. cbn [fold_left].
    repeat (apply Forall_cons; [lia|]). apply Forall_nil. }
  split; [exact C|].
  rewrite uuid_generate_v4_run. cbn [fst]. f_equal.
  rewrite v4_value_used_bits. unfold arg. rewrite C.
  unfold words. cbn [nth firstn skipn]. unfold be_value. cbn [fold_left].
  cbn [bytes_be app].
  list_eq; Z.to_euclidean_division_equations; lia.
Qed.

Lemma generate_v4_surjective_witness :
  fst (uuid_generate_v4
         (world_of_draws right_to_left
            [0xb2c3d479; 0x0e02; 0xa567; 0x4372; 0x58cc; 0xf47ac10b]))
  = Ok [0xf4; 0x7a; 0xc1; 0x0b; 0x58; 0xcc; 0x43; 0x72;
        0xa5; 0x67; 0x0e; 0x02; 0xb2; 0xc3; 0xd4; 0x79].
Proof.
  refine (proj2 (generate_v4_surjective right_to_left
            [0xf4; 0x7a; 0xc1; 0x0b; 0x58; 0xcc; 0x43; 0x72;
             0xa5; 0x67; 0x0e; 0x02; 0xb2; 0xc3; 0xd4; 0x79]
            eq_refl _ eq_refl eq_refl)).
  repeat (apply Forall_cons; [unfold is_byte; lia|]). apply Forall_nil.
Defined.

(** The node of a [uuid_generate_v1mc] value is made of two of the three
    random words drawn by the call, the low sixteen bits of one with bits
    8 and 9 set and the whole of another: the node that the provider put
    in its string never shows, and the node is the same whatever the
    provider returns. *)
Theorem generate_v1mc_node_random (w : world) (u : pg_uuid_t) :
  fst (uuid_generate_v1mc w) = Ok u ->
  let a := call_args w 3 in
  Permutation a [draw w 0; draw w 1; draw w 2]
  /\ uuid_node u
     = bytes_be 2 (Z.lor (Z.land (nth 1 a 0) 0xffff) 0x0300)
       ++ bytes_be 4 (nth 2 a 0)
  /\ forall (w' : world) (u' : pg_uuid_t),
       arc4_stream w' = arc4_stream w ->
       arc4_count w' = arc4_count w ->
       arg_order w' = arg_order w ->
       fst (uuid_generate_v1mc w') = Ok u' ->
       uuid_node u' = uuid_node u.
Proof.
  assert (K : forall w0 u0,
             fst (uuid_generate_v1mc w0) = Ok u0 ->
             uuid_node u0
             = bytes_be 2 (Z.lor (Z.land (arg w0 3 1) 0xffff) 0x0300)
               ++ bytes_be 4 (arg w0 3 2)).
  { intros w0 u0 Hu. apply uuid_generate_v1mc_ok in Hu.
    destruct Hu as (_ & _ & s & h & _ & Hh & ->).
    apply uuid_head_length in Hh. destruct Hh as [Lh _].
    unfold uuid_node. rewrite skipn_app, Lh.
    rewrite skipn_all2 by lia.
    change (10 - 8)%nat with 2%nat. cbn [bytes_be app skipn].
    rewrite mask_16_node.
    assert (N : is_byte (Z.lor ((arg w0 3 1 / 256) mod 256) 3)).
    { apply node_octet_byte. apply Z.mod_pos_bound. lia. }
    unfold is_byte in N.
    list_eq; Z.to_euclidean_division_equations; lia. }
  intros Hu a. split; [apply (call_args_perm w 3)|].
  split; [apply (K w u Hu)|].
  intros w' u' Hs Hc Ho Hu'. rewrite (K w u Hu), (K w' u' Hu').
  unfold arg, call_args, draw. now rewrite Hs, Hc, Ho.
Qed.

Lemma generate_v1mc_node_random_witness :
  fst (uuid_generate_v1mc (sample_world 0 0))
  = Ok [0x1d; 0x19; 0xda; 0xd6; 0xba; 0x7b; 0x11; 0xd1;
        0x9a; 0xfe; 0x9b; 0xbb; 0x12; 0x34; 0x56; 0x78]
  /\ uuid_node [0x1d; 0x19; 0xda; 0xd6; 0xba; 0x7b; 0x11; 0xd1;
                0x9a; 0xfe; 0x9b; 0xbb; 0x12; 0x34; 0x56; 0x78]
     = bytes_be 2 (Z.lor (Z.land (draw (sample_world 0 0) 1) 0xffff) 0x0300)
       ++ bytes_be 4 (draw (sample_world 0 0) 0).
Proof.
  split; [reflexivity|].
  apply (generate_v1mc_node_random (sample_world 0 0)). reflexivity.
Defined.

(** What each generator takes from the outside, also when it fails:
    [uuid_generate_v1] makes one call to the provider and draws no random
    word; [uuid_generate_v1mc] draws three random words and then makes
    one call to the provider; [uuid_generate_v4] draws six random words
    and never calls the provider. *)
Theorem generators_world_effects (w : world) :
  snd (uuid_generate_v1 w) = after_create w
  /\ snd (uuid_generate_v1mc w) = after_create (after_draws w 3)
  /\ snd (uuid_generate_v4 w) = after_draws w 6.
Proof.
  assert (K : forall ptr len w0,
             snd (internal_uuid_create 1 None ptr len w0) = after_create w0).
  { intros ptr len w0. unfold internal_uuid_create, bind.
    rewrite internal_uuid_strbuf_1.
    destruct (create_status w0 =? uuid_s_ok); [|reflexivity].
    destruct (string_status w0 =? uuid_s_ok); [|reflexivity].
    destruct (host_str w0) as [s|]; [|reflexivity].
    assert (I : forall b w1, snd (uuid_in b w1) = w1).
    { intros b w1. unfold uuid_in.
      destruct (string_to_uuid b); reflexivity. }
    destruct ptr as [p|]; [|apply I].
    destruct (len <=? 36); [|apply I].
    destruct (strcpy_at 40 (strlcpy s 37) (Z.to_nat (36 - len)) p);
      [apply I|reflexivity]. }
  split; [apply K|]. split.
  - unfold uuid_generate_v1mc, bind. rewrite v1mc_buf_run. apply K.
  - now rewrite uuid_generate_v4_run.
Qed.
